(** * Face Mask Detection System: the simulation loop of [src/App.tsx]

    A shallow embedding of the state-carrying part of the [App] component:
    [simulateDetection], [updateStats], [toggleDetection], [resetStats] and
    the effect that installs the one-second interval; then of its document
    side: [startCamera], [stopCamera], [simulateCameraFeed],
    [drawDetections] with the effect that redraws, and the values the
    markup shows.

    Numbers.  A JavaScript number is an IEEE-754 double.  The three counters
    of [Stats] only ever hold integers and are embedded as [Z] (exact below
    2^53).  The random draws and everything computed from them, as well as
    the compliance rate, are embedded as exact rationals [Q]: rounding is not
    modelled.  The two comparisons of a draw with a constant ([> 0.6],
    [> 0.3]) are not affected by this, since no double lies between the
    double nearest to the constant and the constant itself.  Module
    [Double] repeats the arithmetic of a tick on binary64 numbers, to run
    it at the ends of the range of the draws. *)

From Stdlib Require Import ZArith QArith Qround List String Bool Lia Lqa.
From Stdlib Require Import DecimalString DecimalZ DecimalPos Floats.
Import ListNotations.

Local Open Scope Z_scope.

(** ** Data model (lines 4-20) *)

Record Detection := mkDetection {
  id         : string;
  x          : Q;
  y          : Q;
  width      : Q;
  height     : Q;
  hasMask    : bool;
  confidence : Q;
  timestamp  : Z
}.

Record Stats := mkStats {
  totalDetections : Z;
  maskedCount     : Z;
  unmaskedCount   : Z;
  complianceRate  : Q
}.

(** The component's [useState] cells (lines 25-35). *)
Record AppState := mkApp {
  isDetecting  : bool;
  detections   : list Detection;
  stats        : Stats;
  alerts       : list string;
  sensitivity  : Q;
  showSettings : bool
}.

(** The value every [useState<Stats>] starts from, and [resetStats] writes. *)
Definition zeroStats : Stats :=
  {| totalDetections := 0; maskedCount := 0; unmaskedCount := 0;
     complianceRate := 0 |}.

Definition initialApp : AppState :=
  {| isDetecting := false; detections := []; stats := zeroStats;
     alerts := []; sensitivity := 0.7; showSettings := false |}.

(** ** The outside world: [Math.random] and the clock

    [Math.random()] reads the next element of a stream of draws.  Each of
    [Date.now()] and [new Date()] reads the next instant of the clock; an
    instant carries its epoch milliseconds and the string
    [toLocaleTimeString()] renders for it (locale dependent, so given). *)

Record Instant := mkInstant {
  epochMs    : Z;
  localeTime : string
}.

Record Env := mkEnv {
  draws        : nat -> Q;
  drawsUsed    : nat;
  instants     : nat -> Instant;
  instantsUsed : nat
}.

Record Sys := mkSys {
  env : Env;
  app : AppState
}.

(** A state monad over [Sys]: the handlers read the world and queue state
    updates; every setter is applied to its own cell in program order. *)
Module Eff.

Definition M (A : Type) : Type := Sys -> A * Sys.

Definition ret {A} (a : A) : M A := fun s => (a, s).

Definition bind {A B} (m : M A) (k : A -> M B) : M B :=
  fun s => let (a, s') := m s in k a s'.

Definition exec {A} (m : M A) (s : Sys) : Sys := snd (m s).

Definition modifyApp (f : AppState -> AppState) : M unit :=
  fun s => (tt, {| env := env s; app := f (app s) |}).

Definition modifyEnv (f : Env -> Env) : M unit :=
  fun s => (tt, {| env := f (env s); app := app s |}).

Definition getEnv : M Env := fun s => (env s, s).

End Eff.

Import Eff.

Declare Scope eff_scope.
Delimit Scope eff_scope with eff.
Notation "v <- m ;; k" := (bind m (fun v => k))
  (at level 61, m at next level, right associativity) : eff_scope.
Notation "m ;;; k" := (bind m (fun _ => k))
  (at level 61, right associativity) : eff_scope.
Local Open Scope eff_scope.

(** [Math.random()] *)
Definition random : M Q :=
  e <- getEnv ;;
  modifyEnv (fun e => {| draws := draws e; drawsUsed := S (drawsUsed e);
                         instants := instants e;
                         instantsUsed := instantsUsed e |}) ;;;
  ret (draws e (drawsUsed e)).

(** [new Date()] *)
Definition newDate : M Instant :=
  e <- getEnv ;;
  modifyEnv (fun e => {| draws := draws e; drawsUsed := drawsUsed e;
                         instants := instants e;
                         instantsUsed := S (instantsUsed e) |}) ;;;
  ret (instants e (instantsUsed e)).

(** [Date.now()] *)
Definition dateNow : M Z :=
  t <- newDate ;; ret (epochMs t).

(** [a > b] on numbers. *)
Definition Qgtb (a b : Q) : bool := negb (Qle_bool a b).

(** An integer inside a template literal. *)
Definition numberToString (n : Z) : string :=
  NilZero.string_of_int (Z.to_int n).

(** ** The [useState] setters *)

Definition setDetections (ds : list Detection) : M unit :=
  modifyApp (fun a =>
    {| isDetecting := isDetecting a; detections := ds; stats := stats a;
       alerts := alerts a; sensitivity := sensitivity a;
       showSettings := showSettings a |}).

Definition setStats (f : Stats -> Stats) : M unit :=
  modifyApp (fun a =>
    {| isDetecting := isDetecting a; detections := detections a;
       stats := f (stats a); alerts := alerts a;
       sensitivity := sensitivity a; showSettings := showSettings a |}).

Definition setAlerts (f : list string -> list string) : M unit :=
  modifyApp (fun a =>
    {| isDetecting := isDetecting a; detections := detections a;
       stats := stats a; alerts := f (alerts a);
       sensitivity := sensitivity a; showSettings := showSettings a |}).

Definition setIsDetecting (b : bool) : M unit :=
  modifyApp (fun a =>
    {| isDetecting := b; detections := detections a; stats := stats a;
       alerts := alerts a; sensitivity := sensitivity a;
       showSettings := showSettings a |}).

Definition setSensitivity (q : Q) : M unit :=
  modifyApp (fun a =>
    {| isDetecting := isDetecting a; detections := detections a;
       stats := stats a; alerts := alerts a; sensitivity := q;
       showSettings := showSettings a |}).

Definition setShowSettings (b : bool) : M unit :=
  modifyApp (fun a =>
    {| isDetecting := isDetecting a; detections := detections a;
       stats := stats a; alerts := alerts a; sensitivity := sensitivity a;
       showSettings := b |}).

(** ** StatsAggregator: [updateStats] (lines 112-125) *)

(** The updater function handed to [setStats]. *)
Definition updateStatsFn (currentDetections : list Detection) (prev : Stats)
  : Stats :=
  let newTotal := totalDetections prev + Z.of_nat (List.length currentDetections) in
  let newMasked :=
    maskedCount prev
    + Z.of_nat (List.length (filter (fun d => hasMask d) currentDetections)) in
  let newUnmasked :=
    unmaskedCount prev
    + Z.of_nat (List.length (filter (fun d => negb (hasMask d)) currentDetections)) in
  {| totalDetections := newTotal;
     maskedCount := newMasked;
     unmaskedCount := newUnmasked;
     complianceRate :=
       if newTotal >? 0
       then ((inject_Z newMasked / inject_Z newTotal) * 100)%Q
       else 0%Q |}.

Definition updateStats (currentDetections : list Detection) : M unit :=
  setStats (updateStatsFn currentDetections).

(** ** AlertLog (lines 102-106) *)

Definition alertMessage (t : Instant) : string :=
  ("Alert: No mask detected at " ++ localeTime t)%string.

(** The updater handed to [setAlerts]: [[alertMessage, ...prev.slice(0, 4)]]. *)
Definition pushAlert (msg : string) (prev : list string) : list string :=
  msg :: firstn 4 prev.

(** The alert step of a tick for the detection it synthesized. *)
Definition recordAlert (detection : Detection) : M unit :=
  if negb (hasMask detection) then
    t <- newDate ;;
    setAlerts (pushAlert (alertMessage t))
  else ret tt.

(** ** DetectionSimulator: [simulateDetection] (lines 80-110) *)

Definition simulateDetection : M unit :=
  presence <- random ;;
  let hasPersonPresent := Qgtb presence 0.6 in
  if negb hasPersonPresent then
    setDetections []
  else
    now1 <- dateNow ;;
    rx <- random ;;
    ry <- random ;;
    rw <- random ;;
    rh <- random ;;
    rm <- random ;;
    rc <- random ;;
    now2 <- dateNow ;;
    let detection :=
      {| id := ("face-" ++ numberToString now1)%string;
         x := (rx * 500 + 50)%Q;
         y := (ry * 300 + 50)%Q;
         width := (80 + rw * 40)%Q;
         height := (100 + rh * 40)%Q;
         hasMask := Qgtb rm 0.3;
         confidence := (rc * 0.3 + 0.7)%Q;
         timestamp := now2 |} in
    let newDetections := [detection] in
    recordAlert detection ;;;
    setDetections newDetections ;;;
    updateStats newDetections.

(** ** [toggleDetection] (127-129) and [resetStats] (131-139) *)

Definition toggleDetection : M unit :=
  fun s => setIsDetecting (negb (isDetecting (app s))) s.

Definition resetStats : M unit :=
  setStats (fun _ => zeroStats) ;;;
  setAlerts (fun _ => []).

(** ** The page: timers and the detection effect (lines 42-49)

    The browser keeps a table of live intervals.  The effect with
    dependencies [[isDetecting, sensitivity]] installs an interval when
    [isDetecting] holds and returns the closure that clears it; React runs
    that closure before the effect runs again.  Effects are taken to run
    together with the render their state change causes.  [ticksRun] is a
    ghost counter of the calls of [simulateDetection]. *)

Record Page := mkPage {
  sys             : Sys;
  activeIntervals : list nat;
  nextIntervalId  : nat;
  cleanup         : option nat;
  ticksRun        : nat
}.

(** [setInterval(..., 1000)]: a fresh id, now live. *)
Definition setInterval (p : Page) : nat * Page :=
  let interval := nextIntervalId p in
  (interval,
   {| sys := sys p; activeIntervals := interval :: activeIntervals p;
      nextIntervalId := S interval; cleanup := cleanup p;
      ticksRun := ticksRun p |}).

(** [clearInterval(interval)] *)
Definition clearInterval (interval : nat) (p : Page) : Page :=
  {| sys := sys p;
     activeIntervals :=
       filter (fun i => negb (Nat.eqb i interval)) (activeIntervals p);
     nextIntervalId := nextIntervalId p; cleanup := cleanup p;
     ticksRun := ticksRun p |}.

Definition withCleanup (c : option nat) (p : Page) : Page :=
  {| sys := sys p; activeIntervals := activeIntervals p;
     nextIntervalId := nextIntervalId p; cleanup := c;
     ticksRun := ticksRun p |}.

(** The body of the effect. *)
Definition detectionEffect (p : Page) : Page :=
  if isDetecting (app (sys p)) then
    let (interval, p') := setInterval p in
    withCleanup (Some interval) p'
  else withCleanup None p.

(** The closure the effect returned last, if it returned one. *)
Definition runCleanup (p : Page) : Page :=
  match cleanup p with
  | Some interval => clearInterval interval p
  | None => p
  end.

(** Whether the dependency array differs from the one of the last render. *)
Definition depsChanged (before after : AppState) : bool :=
  negb (Bool.eqb (isDetecting before) (isDetecting after))
  || negb (Qeq_bool (sensitivity before) (sensitivity after)).

(** The render after a state change, with its effect. *)
Definition commit (before : AppState) (p : Page) : Page :=
  if depsChanged before (app (sys p)) then detectionEffect (runCleanup p)
  else p.

Definition runHandler (h : M unit) (p : Page) : Page :=
  {| sys := exec h (sys p); activeIntervals := activeIntervals p;
     nextIntervalId := nextIntervalId p; cleanup := cleanup p;
     ticksRun := ticksRun p |}.

Definition countTick (p : Page) : Page :=
  {| sys := sys p; activeIntervals := activeIntervals p;
     nextIntervalId := nextIntervalId p; cleanup := cleanup p;
     ticksRun := S (ticksRun p) |}.

(** What can happen to the page: the four controls, and a timer coming
    due.  An interval that is no longer live does not call back. *)
Inductive Event :=
  | ClickToggle
  | ClickReset
  | SlideSensitivity (value : Q)
  | ClickSettings
  | IntervalDue (interval : nat).

Definition handle (ev : Event) (p : Page) : Page :=
  match ev with
  | ClickToggle => runHandler toggleDetection p
  | ClickReset => runHandler resetStats p
  | SlideSensitivity value => runHandler (setSensitivity value) p
  | ClickSettings =>
      runHandler (fun s => setShowSettings (negb (showSettings (app s))) s) p
  | IntervalDue interval =>
      if existsb (Nat.eqb interval) (activeIntervals p)
      then countTick (runHandler simulateDetection p)
      else p
  end.

Definition dispatch (p : Page) (ev : Event) : Page :=
  commit (app (sys p)) (handle ev p).

(** The first render: initial state, and the effect runs once. *)
Definition mount (e : Env) : Page :=
  detectionEffect
    {| sys := {| env := e; app := initialApp |}; activeIntervals := [];
       nextIntervalId := 0; cleanup := None; ticksRun := 0 |}.

Definition run (events : list Event) (p : Page) : Page :=
  fold_left dispatch events p.

(** * The document side: camera, canvas and what the markup shows *)

(** ** The document (lines 23-24, 228-241)

    The two refs point at the video and the canvas element, or at nothing
    while the element is not attached.  A media stream is the list of its
    tracks; [track.stop()] is recorded in the set of stopped tracks, so a
    track shared by two streams is stopped for both.  What is on the canvas
    is the list of shapes painted since it was last cleared entirely. *)
Module Dom.

Definition MediaStream : Type := list nat.

Record Video := mkVideo {
  srcObject  : option MediaStream;
  background : string
}.

Inductive Shape :=
  | Erased (left top w h : Q)
  | StrokedRect (left top w h : Q) (style : string) (thickness : Q)
  | FilledRect (left top w h : Q) (style : string)
  | FilledText (text : string) (left top : Q) (style fontName align : string).

Record Context2D := mkContext {
  strokeStyle : string;
  lineWidth   : Q;
  fillStyle   : string;
  font        : string;
  textAlign   : string;
  painted     : list Shape
}.

Record Canvas := mkCanvas {
  width   : Q;
  height  : Q;
  context : option Context2D
}.

Record Document := mkDocument {
  videoRef      : option Video;
  canvasRef     : option Canvas;
  stoppedTracks : list nat;
  consoleErrors : list (string * string)
}.

Definition paint (s : Shape) (ctx : Context2D) : Context2D :=
  {| strokeStyle := strokeStyle ctx; lineWidth := lineWidth ctx;
     fillStyle := fillStyle ctx; font := font ctx;
     textAlign := textAlign ctx; painted := painted ctx ++ [s] |}.

Definition setStrokeStyle (v : string) (ctx : Context2D) : Context2D :=
  {| strokeStyle := v; lineWidth := lineWidth ctx;
     fillStyle := fillStyle ctx; font := font ctx;
     textAlign := textAlign ctx; painted := painted ctx |}.

Definition setLineWidth (v : Q) (ctx : Context2D) : Context2D :=
  {| strokeStyle := strokeStyle ctx; lineWidth := v;
     fillStyle := fillStyle ctx; font := font ctx;
     textAlign := textAlign ctx; painted := painted ctx |}.

Definition setFillStyle (v : string) (ctx : Context2D) : Context2D :=
  {| strokeStyle := strokeStyle ctx; lineWidth := lineWidth ctx;
     fillStyle := v; font := font ctx;
     textAlign := textAlign ctx; painted := painted ctx |}.

Definition setFont (v : string) (ctx : Context2D) : Context2D :=
  {| strokeStyle := strokeStyle ctx; lineWidth := lineWidth ctx;
     fillStyle := fillStyle ctx; font := v;
     textAlign := textAlign ctx; painted := painted ctx |}.

Definition setTextAlign (v : string) (ctx : Context2D) : Context2D :=
  {| strokeStyle := strokeStyle ctx; lineWidth := lineWidth ctx;
     fillStyle := fillStyle ctx; font := font ctx;
     textAlign := v; painted := painted ctx |}.

(** [ctx.clearRect]: a rectangle over the whole bitmap of the canvas leaves
    nothing painted; a smaller one is kept as an erasure. *)
Definition clearRect (canvas : Canvas) (left top w h : Q) (ctx : Context2D)
  : Context2D :=
  if Qle_bool left 0 && Qle_bool top 0
     && Qle_bool (width canvas) (left + w)
     && Qle_bool (height canvas) (top + h)
  then {| strokeStyle := strokeStyle ctx; lineWidth := lineWidth ctx;
          fillStyle := fillStyle ctx; font := font ctx;
          textAlign := textAlign ctx; painted := [] |}
  else paint (Erased left top w h) ctx.

Definition strokeRect (left top w h : Q) (ctx : Context2D) : Context2D :=
  paint (StrokedRect left top w h (strokeStyle ctx) (lineWidth ctx)) ctx.

Definition fillRect (left top w h : Q) (ctx : Context2D) : Context2D :=
  paint (FilledRect left top w h (fillStyle ctx)) ctx.

Definition fillText (text : string) (left top : Q) (ctx : Context2D)
  : Context2D :=
  paint (FilledText text left top (fillStyle ctx) (font ctx) (textAlign ctx))
        ctx.

Definition withVideo (v : option Video) (doc : Document) : Document :=
  {| videoRef := v; canvasRef := canvasRef doc;
     stoppedTracks := stoppedTracks doc;
     consoleErrors := consoleErrors doc |}.

Definition withCanvas (c : option Canvas) (doc : Document) : Document :=
  {| videoRef := videoRef doc; canvasRef := c;
     stoppedTracks := stoppedTracks doc;
     consoleErrors := consoleErrors doc |}.

(** [track.stop()] *)
Definition stopTrack (doc : Document) (track : nat) : Document :=
  {| videoRef := videoRef doc; canvasRef := canvasRef doc;
     stoppedTracks := track :: stoppedTracks doc;
     consoleErrors := consoleErrors doc |}.

(** [console.error(message, err)] *)
Definition consoleError (message err : string) (doc : Document) : Document :=
  {| videoRef := videoRef doc; canvasRef := canvasRef doc;
     stoppedTracks := stoppedTracks doc;
     consoleErrors := consoleErrors doc ++ [(message, err)] |}.

End Dom.

(** ** Camera (lines 37-40, 51-78) *)

(** How [navigator.mediaDevices.getUserMedia] settles. *)
Inductive MediaResult :=
  | Granted (stream : Dom.MediaStream)
  | Rejected (err : string).

Definition simulateCameraFeed (doc : Dom.Document) : Dom.Document :=
  match Dom.videoRef doc with
  | Some video =>
      Dom.withVideo
        (Some {| Dom.srcObject := Dom.srcObject video;
                 Dom.background :=
                   "linear-gradient(45deg, #1a1a2e, #16213e)" |})
        doc
  | None => doc
  end.

(** [startCamera], from the moment the awaited request settles. *)
Definition startCamera (settled : MediaResult) (doc : Dom.Document)
  : Dom.Document :=
  match settled with
  | Granted stream =>
      match Dom.videoRef doc with
      | Some video =>
          Dom.withVideo
            (Some {| Dom.srcObject := Some stream;
                     Dom.background := Dom.background video |})
            doc
      | None => doc
      end
  | Rejected err =>
      simulateCameraFeed (Dom.consoleError "Error accessing camera:" err doc)
  end.

Definition stopCamera (doc : Dom.Document) : Dom.Document :=
  match Dom.videoRef doc with
  | Some video =>
      match Dom.srcObject video with
      | Some stream =>
          let tracks := stream in
          fold_left Dom.stopTrack tracks doc
      | None => doc
      end
  | None => doc
  end.

(** ** Number formatting: [toFixed]

    [Number.prototype.toFixed] as ECMAScript defines it, on rationals: the
    sign is split off, a magnitude of at least 10^21 is rendered by
    [ToString], and otherwise the integer [n] nearest to [x * 10^f], the
    larger on a tie, is written with [f] digits after the point.  The
    exponent notation of [ToString] belongs to the number type and is a
    parameter. *)

Fixpoint zeros (n : nat) : string :=
  match n with
  | O => EmptyString
  | S n' => ("0" ++ zeros n')%string
  end.

(** The integer [n] for which [n - x] is closest to zero, the larger one if
    there are two. *)
Definition roundHalfUp (x : Q) : Z := Qfloor (x + (1 # 2)).

(** The digits of [n] with a point before the last [f] of them. *)
Definition fixedDigits (f : nat) (n : Z) : string :=
  let m := numberToString n in
  if Nat.eqb f 0 then m
  else
    let k := String.length m in
    let m := if Nat.leb k f then (zeros (f + 1 - k) ++ m)%string else m in
    let k := String.length m in
    (substring 0 (k - f) m ++ "." ++ substring (k - f) f m)%string.

Section Display.

Variable exponentNotation : Q -> string.

Definition toFixed (fractionDigits : nat) (x : Q) : string :=
  let negative := negb (Qle_bool 0 x) in
  let s := if negative then "-"%string else EmptyString in
  let x := if negative then (- x)%Q else x in
  if Qle_bool (inject_Z (10 ^ 21)) x then (s ++ exponentNotation x)%string
  else
    let n :=
      roundHalfUp (x * inject_Z (10 ^ Z.of_nat fractionDigits))%Q in
    (s ++ fixedDigits fractionDigits n)%string.

(** ** The overlay: [drawDetections] (lines 141-177) *)

(** The body of the [forEach]. *)
Definition drawDetection (ctx : Dom.Context2D) (detection : Detection)
  : Dom.Context2D :=
  let color := if hasMask detection then "#10b981"%string
               else "#ef4444"%string in
  let label := if hasMask detection then "MASK"%string
               else "NO MASK"%string in
  let ctx := Dom.setStrokeStyle color ctx in
  let ctx := Dom.setLineWidth 3 ctx in
  let ctx :=
    Dom.strokeRect (x detection) (y detection) (width detection)
      (height detection) ctx in
  let ctx := Dom.setFillStyle color ctx in
  let ctx :=
    Dom.fillRect (x detection) (y detection - 30)%Q (width detection) 30
      ctx in
  let ctx := Dom.setFillStyle "white" ctx in
  let ctx := Dom.setFont "14px Arial" ctx in
  let ctx := Dom.setTextAlign "center" ctx in
  Dom.fillText
    (label ++ " (" ++ toFixed 0 (confidence detection * 100)%Q ++ "%)")%string
    (x detection + width detection / 2)%Q
    (y detection - 8)%Q
    ctx.

Definition drawDetections (detections : list Detection)
  (doc : Dom.Document) : Dom.Document :=
  match Dom.canvasRef doc with
  | None => doc
  | Some canvas =>
      match Dom.context canvas with
      | None => doc
      | Some ctx =>
          let ctx :=
            Dom.clearRect canvas 0 0 (Dom.width canvas) (Dom.height canvas)
              ctx in
          let ctx := fold_left drawDetection detections ctx in
          Dom.withCanvas
            (Some {| Dom.width := Dom.width canvas;
                     Dom.height := Dom.height canvas;
                     Dom.context := Some ctx |})
            doc
      end
  end.

(** ** The page with its document

    The effect with dependency [[detections]] redraws after the first
    render and after every render that follows a call of [setDetections]:
    each call passes a new array.  Only [simulateDetection] calls it. *)

Record Screen := mkScreen {
  page : Page;
  doc  : Dom.Document
}.

Definition setsDetections (ev : Event) (p : Page) : bool :=
  match ev with
  | IntervalDue interval => existsb (Nat.eqb interval) (activeIntervals p)
  | _ => false
  end.

Definition dispatchScreen (s : Screen) (ev : Event) : Screen :=
  let p := dispatch (page s) ev in
  {| page := p;
     doc := if setsDetections ev (page s)
            then drawDetections (detections (app (sys p))) (doc s)
            else doc s |}.

Definition mountScreen (e : Env) (d : Dom.Document) : Screen :=
  {| page := mount e; doc := drawDetections (detections initialApp) d |}.

Definition runScreen (events : list Event) (s : Screen) : Screen :=
  fold_left dispatchScreen events s.

(** ** What the markup shows (lines 179-368) *)

(** Header indicator, lines 190-193. *)
Definition statusText (a : AppState) : string :=
  if isDetecting a then "Detecting" else "Stopped".

(** The toggle button, lines 214-224. *)
Definition toggleLabel (a : AppState) : string :=
  ((if isDetecting a then "Stop" else "Start") ++ " Detection")%string.

(** The hint over the video, lines 242-249. *)
Definition hintShown (a : AppState) : bool := negb (isDetecting a).

(** The colour of the compliance rate, line 277. *)
Definition complianceClass (a : AppState) : string :=
  if Qle_bool 90 (complianceRate (stats a)) then "text-green-400"
  else if Qle_bool 70 (complianceRate (stats a)) then "text-yellow-400"
  else "text-red-400".


(** Line 297. *)
Definition sensitivityLabel (a : AppState) : string :=
  ("Sensitivity: " ++ toFixed 0 (sensitivity a * 100)%Q ++ "%")%string.

(** A row of the list of current detections, lines 342-361: its key, the
    part of its class that depends on the detection, and its two texts. *)
Record DetectionRow := mkRow {
  rowKey        : string;
  rowClass      : string;
  rowLabel      : string;
  rowConfidence : string
}.

Definition detectionRow (detection : Detection) : DetectionRow :=
  {| rowKey := id detection;
     rowClass := if hasMask detection then "bg-green-900 bg-opacity-50"
                 else "bg-red-900 bg-opacity-50";
     rowLabel := if hasMask detection then "Mask" else "No Mask";
     rowConfidence :=
       (toFixed 0 (confidence detection * 100)%Q ++ "%")%string |}.

(** The list of current detections, lines 339-362: the placeholder text or
    one row per detection. *)
Definition detectionsPanel (a : AppState) : string + list DetectionRow :=
  if Nat.eqb (List.length (detections a)) 0
  then inl "No faces detected"%string
  else inr (map detectionRow (detections a)).

(** The list of alerts, lines 320-331: the placeholder text or one row per
    alert, keyed by its index. *)
Definition alertsPanel (a : AppState) : string + list (nat * string) :=
  if Nat.eqb (List.length (alerts a)) 0
  then inl "No alerts"%string
  else inr (combine (seq 0 (List.length (alerts a))) (alerts a)).

End Display.

(** * Specification vocabulary *)

(** ** Statistics *)

(** Stats after folding a sequence of batches into the zero state. *)
Definition statsAfter (batches : list (list Detection)) : Stats :=
  fold_left (fun s b => updateStatsFn b s) batches zeroStats.

Definition countsBalanced (s : Stats) : Prop :=
  maskedCount s + unmaskedCount s = totalDetections s.

(** What is known of a [Stats] built from the zero state. *)
Record statsInv (s : Stats) : Prop := {
  inv_masked_nonneg   : 0 <= maskedCount s;
  inv_unmasked_nonneg : 0 <= unmaskedCount s;
  inv_balanced        : countsBalanced s;
  inv_rate :
    complianceRate s =
    if totalDetections s >? 0
    then ((inject_Z (maskedCount s) / inject_Z (totalDetections s)) * 100)%Q
    else 0%Q
}.

(** ** What a tick reads and builds *)

(** The [k]-th draw and the [k]-th instant a handler started in [s] reads. *)
Definition drawAt (s : Sys) (k : nat) : Q :=
  draws (env s) (k + drawsUsed (env s)).

Definition instantAt (s : Sys) (k : nat) : Instant :=
  instants (env s) (k + instantsUsed (env s)).

(** The detection a tick started in [s] synthesizes when a subject is
    present: the object literal of lines 90-99 over the draws it reads. *)
Definition synthesized (s : Sys) : Detection :=
  {| id := ("face-" ++ numberToString (epochMs (instantAt s 0)))%string;
     x := (drawAt s 1 * 500 + 50)%Q;
     y := (drawAt s 2 * 300 + 50)%Q;
     width := (80 + drawAt s 3 * 40)%Q;
     height := (100 + drawAt s 4 * 40)%Q;
     hasMask := Qgtb (drawAt s 5) 0.3;
     confidence := (drawAt s 6 * 0.3 + 0.7)%Q;
     timestamp := epochMs (instantAt s 1) |}.

(** The same cell contents, with another sensitivity. *)
Definition withSensitivity (value : Q) (s : Sys) : Sys :=
  exec (setSensitivity value) s.

(** Unfolds a handler down to the record fields. *)
Ltac run_tick :=
  cbv beta iota zeta delta
    [exec simulateDetection recordAlert updateStats dateNow newDate random
     setDetections setStats setAlerts bind ret getEnv modifyEnv modifyApp
     fst snd env app draws drawsUsed instants instantsUsed
     isDetecting detections stats alerts sensitivity showSettings
     hasMask epochMs negb Nat.add].

(** ** Pages *)

(** The state cells a page shows. *)
Definition ui (p : Page) : AppState := app (sys p).

(** The live intervals are exactly the one the pending cleanup closure
    holds, and there is one precisely while detecting. *)
Definition timerInvFor (detecting : bool) (p : Page) : Prop :=
  match cleanup p with
  | Some interval => detecting = true /\ activeIntervals p = [interval]
  | None => detecting = false /\ activeIntervals p = []
  end.

Definition timerInv (p : Page) : Prop := timerInvFor (isDetecting (ui p)) p.

(** What every page reached from the first render satisfies. *)
Record pageInv (p : Page) : Prop := {
  inv_timer  : timerInv p;
  inv_stats  : statsInv (stats (ui p));
  inv_alerts : (List.length (alerts (ui p)) <= 5)%nat
}.

(** ** Sample worlds and values, used to run the definitions *)

Definition clockFrom (t0 : Z) (n : nat) : Instant :=
  {| epochMs := t0 + 1000 * Z.of_nat n; localeTime := "10:15:00 AM" |}.

(** Every draw is 0.7: a subject is present, and masked. *)
Definition maskedEnv : Env :=
  {| draws := fun _ => 0.7%Q; drawsUsed := 0;
     instants := clockFrom 1700000000000; instantsUsed := 0 |}.

(** Every draw is 0.9 but the sixth, the mask draw: present, unmasked. *)
Definition unmaskedEnv : Env :=
  {| draws := fun n => match n with 5%nat => 0.1%Q | _ => 0.9%Q end;
     drawsUsed := 0;
     instants := clockFrom 1700000000000; instantsUsed := 0 |}.

(** Every draw is 0.25: nobody is present. *)
Definition emptyEnv : Env :=
  {| draws := fun _ => 0.25%Q; drawsUsed := 0;
     instants := clockFrom 1700000000000; instantsUsed := 0 |}.

(** Three ticks: a masked subject, nobody, an unmasked subject.  The first
    tick reads draws 0-6, the second draw 7, the third draws 8-14. *)
Definition scenarioEnv : Env :=
  {| draws := fun n => match n with
                       | 7%nat | 13%nat => 0.1%Q
                       | _ => 0.9%Q
                       end;
     drawsUsed := 0;
     instants := clockFrom 1700000000000; instantsUsed := 0 |}.

Definition maskedFace : Detection :=
  {| id := "face-1"; x := 100; y := 100; width := 90; height := 110;
     hasMask := true; confidence := 0.9; timestamp := 1 |}.

Definition unmaskedFace : Detection :=
  {| id := "face-2"; x := 100; y := 100; width := 90; height := 110;
     hasMask := false; confidence := 0.8; timestamp := 2 |}.

Definition maskedSys : Sys := {| env := maskedEnv; app := initialApp |}.

Definition unmaskedSys : Sys := {| env := unmaskedEnv; app := initialApp |}.

Definition fullLog : list string := ["a5"; "a4"; "a3"; "a2"; "a1"]%string.

(** Detecting, with a full alert log. *)
Definition fullLogSys : Sys :=
  {| env := unmaskedEnv;
     app := {| isDetecting := true; detections := []; stats := zeroStats;
               alerts := fullLog; sensitivity := 0.7;
               showSettings := false |} |}.

(** Detecting, with a detection on display, two counted and one alert. *)
Definition emptySys : Sys :=
  {| env := emptyEnv;
     app := {| isDetecting := true; detections := [maskedFace];
               stats := statsAfter [[maskedFace]; [unmaskedFace]];
               alerts := ["a1"%string]; sensitivity := 0.7;
               showSettings := false |} |}.

(** Detection was started and one tick, with a masked subject, has run. *)
Definition runningEvents : list Event := [ClickToggle; IntervalDue 0].

(** ** The arithmetic of a tick on doubles

    The expressions of lines 82-97 once more, on the binary64 numbers the
    program computes with, to run them at the ends of the range of
    [Math.random()]. *)
Module Double.

#[local] Set Warnings "-inexact-float".
Local Open Scope float_scope.

(** The largest double below 1. *)
Definition maxDraw : float := 0x1.fffffffffffffp-1.

Definition hasPersonPresent (r : float) : bool := 0.6 <? r.
Definition x (r : float) : float := r * 500 + 50.
Definition y (r : float) : float := r * 300 + 50.
Definition width (r : float) : float := 80 + r * 40.
Definition height (r : float) : float := 100 + r * 40.
Definition hasMask (r : float) : bool := 0.3 <? r.
Definition confidence (r : float) : float := r * 0.3 + 0.7.

(** The literal [0.7] of line 97, the least confidence. *)
Definition leastConfidence : float := 0.7.

Definition within (lo v hi : float) : bool := (lo <=? v) && (v <=? hi).

End Double.

(** ** Further vocabulary *)

(** More of what every page reached from the first render satisfies: live
    intervals carry ids already issued, at most one detection is on
    display, the alert log is as long as the unmasked count allows, and no
    more detections were counted than ticks have run. *)
Record runInv (p : Page) : Prop := {
  inv_fresh :
    forall i, In i (activeIntervals p) -> (i < nextIntervalId p)%nat;
  inv_single : (List.length (detections (ui p)) <= 1)%nat;
  inv_alert_count :
    List.length (alerts (ui p))
    = Nat.min 5 (Z.to_nat (unmaskedCount (stats (ui p))));
  inv_total_ticks : totalDetections (stats (ui p)) <= Z.of_nat (ticksRun p)
}.

(** What [drawDetection] paints for one detection: the box, the label
    strip on top of it, and the label. *)
Definition detectionShapes (exponentNotation : Q -> string)
  (d : Detection) : list Dom.Shape :=
  let color := if hasMask d then "#10b981"%string else "#ef4444"%string in
  let label := if hasMask d then "MASK"%string else "NO MASK"%string in
  [Dom.StrokedRect (x d) (y d) (width d) (height d) color 3;
   Dom.FilledRect (x d) (y d - 30)%Q (width d) 30 color;
   Dom.FilledText
     (label ++ " (" ++ toFixed exponentNotation 0 (confidence d * 100)%Q
            ++ "%)")%string
     (x d + width d / 2)%Q (y d - 8)%Q "white" "14px Arial" "center"].

(** What is painted on the canvas of a document, if it has a context. *)
Definition paintedOn (d : Dom.Document) : option (list Dom.Shape) :=
  match Dom.canvasRef d with
  | Some canvas =>
      match Dom.context canvas with
      | Some ctx => Some (Dom.painted ctx)
      | None => None
      end
  | None => None
  end.

(** The tracks of the stream attached to the video element, if any. *)
Definition attachedTracks (d : Dom.Document) : list nat :=
  match Dom.videoRef d with
  | Some video =>
      match Dom.srcObject video with
      | Some stream => stream
      | None => []
      end
  | None => []
  end.

(** A stand-in for the exponent notation, to run [toFixed]. *)
Definition sampleExponent (x : Q) : string := "1e+21".

(** A fresh 2d context and the document the markup creates: the video
    without a stream, the 640 by 480 canvas. *)
Definition freshContext : Dom.Context2D :=
  {| Dom.strokeStyle := "#000000"; Dom.lineWidth := 1;
     Dom.fillStyle := "#000000"; Dom.font := "10px sans-serif";
     Dom.textAlign := "start"; Dom.painted := [] |}.

Definition sampleDocument : Dom.Document :=
  {| Dom.videoRef := Some {| Dom.srcObject := None; Dom.background := "" |};
     Dom.canvasRef :=
       Some {| Dom.width := 640; Dom.height := 480;
               Dom.context := Some freshContext |};
     Dom.stoppedTracks := []; Dom.consoleErrors := [] |}.

(** * Properties *)

(** ** StatsAggregator *)

Lemma batch_split (b : list Detection) :
  Z.of_nat (List.length (filter (fun d => hasMask d) b))
  + Z.of_nat (List.length (filter (fun d => negb (hasMask d)) b))
  = Z.of_nat (List.length b).
Proof.
  rewrite <- Nat2Z.inj_add. f_equal. apply filter_length.
Qed.

Lemma updateStatsFn_balanced (b : list Detection) (s : Stats) :
  countsBalanced s -> countsBalanced (updateStatsFn b s).
Proof.
  unfold countsBalanced, updateStatsFn; cbn.
  pose proof (batch_split b). lia.
Qed.

Lemma statsAfter_snoc (batches : list (list Detection)) (b : list Detection) :
  statsAfter (batches ++ [b]) = updateStatsFn b (statsAfter batches).
Proof.
  unfold statsAfter. rewrite fold_left_app. reflexivity.
Qed.

(** Two records built by [updateStatsFn]'s last expression agree as soon as
    their counters do: the rate is a function of the new counters only. *)
Lemma stats_of_counters (t m u t' m' u' : Z) :
  t = t' -> m = m' -> u = u' ->
  {| totalDetections := t; maskedCount := m; unmaskedCount := u;
     complianceRate :=
       if t >? 0 then ((inject_Z m / inject_Z t) * 100)%Q else 0%Q |}
  = {| totalDetections := t'; maskedCount := m'; unmaskedCount := u';
       complianceRate :=
         if t' >? 0 then ((inject_Z m' / inject_Z t') * 100)%Q else 0%Q |}.
Proof. intros; subst; reflexivity. Qed.

Lemma statsInv_zero : statsInv zeroStats.
Proof. split; cbn; unfold countsBalanced; cbn; try lia; reflexivity. Qed.

Lemma statsInv_update (b : list Detection) (s : Stats) :
  statsInv s -> statsInv (updateStatsFn b s).
Proof.
  intros [Hm Hu Hb _]. split.
  - cbn. lia.
  - cbn. lia.
  - now apply updateStatsFn_balanced.
  - reflexivity.
Qed.

Lemma statsInv_statsAfter (batches : list (list Detection)) :
  statsInv (statsAfter batches).
Proof.
  induction batches as [|b batches IH] using rev_ind.
  - apply statsInv_zero.
  - rewrite statsAfter_snoc. now apply statsInv_update.
Qed.

(** The quotient [m / t] of two counters with [0 <= m <= t], [0 < t]. *)
Lemma ratio_bounds (m t : Z) :
  0 <= m <= t -> 0 < t ->
  (0 <= inject_Z m / inject_Z t <= 1)%Q.
Proof.
  intros [Hm Hmt] Ht.
  assert (Ht' : (0 < inject_Z t)%Q) by (unfold Qlt; cbn; lia).
  split.
  - apply Qle_shift_div_l; [exact Ht'|].
    rewrite Qmult_0_l. unfold Qle; cbn; lia.
  - apply Qle_shift_div_r; [exact Ht'|].
    rewrite Qmult_1_l. unfold Qle; cbn; lia.
Qed.

Lemma ratio_zero (m t : Z) :
  0 < t -> (inject_Z m / inject_Z t == 0)%Q <-> m = 0.
Proof.
  intros Ht.
  assert (Ht' : ~ (inject_Z t == 0)%Q).
  { intros H. unfold Qeq in H; cbn in H. lia. }
  split.
  - intros H.
    assert (Hm : (inject_Z m == 0)%Q).
    { rewrite <- (Qmult_div_r (inject_Z m) (inject_Z t) Ht').
      rewrite H. apply Qmult_0_r. }
    unfold Qeq in Hm; cbn in Hm. lia.
  - intros ->. unfold Qdiv. apply Qmult_0_l.
Qed.

Lemma rate_of_statsInv (s : Stats) :
  statsInv s ->
  (0 <= complianceRate s <= 100)%Q
  /\ ((complianceRate s == 0)%Q <-> maskedCount s = 0).
Proof.
  intros [Hm Hu Hb Hr]. unfold countsBalanced in Hb. rewrite Hr.
  destruct (totalDetections s >? 0) eqn:Ht.
  - apply Z.gtb_lt in Ht.
    pose proof (ratio_bounds (maskedCount s) (totalDetections s)
                  ltac:(lia) Ht) as [H0 H1].
    pose proof (ratio_zero (maskedCount s) (totalDetections s) Ht) as Hz.
    split; [lra|].
    rewrite <- Hz. split; intros H; lra.
  - assert (totalDetections s <= 0) by (rewrite Z.gtb_ltb in Ht; apply Z.ltb_ge in Ht; exact Ht).
    split; [lra|]. split; [intros _; lia | reflexivity].
Qed.

(** ** DetectionSimulator *)

(** The cells of the component after one call of [simulateDetection]. *)
Lemma simulateDetection_cells (s : Sys) :
  let a := app s in
  let a' := app (exec simulateDetection s) in
  isDetecting a' = isDetecting a
  /\ sensitivity a' = sensitivity a
  /\ showSettings a' = showSettings a
  /\ if Qgtb (drawAt s 0) 0.6
     then detections a' = [synthesized s]
          /\ stats a' = updateStatsFn [synthesized s] (stats a)
          /\ alerts a' =
             if hasMask (synthesized s) then alerts a
             else pushAlert (alertMessage (instantAt s 2)) (alerts a)
     else detections a' = [] /\ stats a' = stats a /\ alerts a' = alerts a.
Proof.
  destruct s as [[rnd used clock read] [dt ds st al se sh]].
  unfold synthesized, drawAt, instantAt. run_tick.
  destruct (Qgtb (rnd used) 0.6); run_tick;
    [destruct (Qgtb (rnd (S (S (S (S (S used)))))) 0.3); run_tick|];
    repeat split; reflexivity.
Qed.

(** What a tick consumes of the world: one draw when nobody is present;
    seven draws and two clock reads otherwise, and a third clock read for
    the alert of an unmasked subject. *)
Lemma simulateDetection_env (s : Sys) :
  let e := env s in
  let e' := env (exec simulateDetection s) in
  draws e' = draws e
  /\ instants e' = instants e
  /\ drawsUsed e' =
     ((if Qgtb (drawAt s 0) 0.6 then 7 else 1) + drawsUsed e)%nat
  /\ instantsUsed e' =
     ((if Qgtb (drawAt s 0) 0.6
       then if hasMask (synthesized s) then 2 else 3
       else 0) + instantsUsed e)%nat.
Proof.
  destruct s as [[rnd used clock read] [dt ds st al se sh]].
  unfold synthesized, drawAt, instantAt. run_tick.
  destruct (Qgtb (rnd used) 0.6); run_tick;
    [destruct (Qgtb (rnd (S (S (S (S (S used)))))) 0.3); run_tick|];
    repeat split; reflexivity.
Qed.

Lemma Qgtb_true (a b : Q) : Qgtb a b = true <-> (b < a)%Q.
Proof.
  unfold Qgtb. rewrite negb_true_iff, <- not_true_iff_false, Qle_bool_iff.
  split; [apply Qnot_le_lt | apply Qlt_not_le].
Qed.

Lemma Qgtb_false (a b : Q) : Qgtb a b = false <-> (a <= b)%Q.
Proof.
  unfold Qgtb. rewrite negb_false_iff. apply Qle_bool_iff.
Qed.

Lemma pushAlert_firstn (msg : string) (log : list string) :
  pushAlert msg log = firstn 5 (msg :: log).
Proof. reflexivity. Qed.

Lemma pushAlert_length (msg : string) (log : list string) :
  List.length (pushAlert msg log) = Nat.min 5 (S (List.length log)).
Proof.
  rewrite pushAlert_firstn. apply length_firstn.
Qed.

Lemma recordAlert_alerts (d : Detection) (s : Sys) :
  alerts (app (exec (recordAlert d) s)) =
  if hasMask d then alerts (app s)
  else pushAlert (alertMessage (instantAt s 0)) (alerts (app s)).
Proof.
  unfold exec, recordAlert, instantAt. destruct (hasMask d); reflexivity.
Qed.

(** [recordAlert] touches the alert log and the clock, nothing else. *)
Lemma recordAlert_frame (d : Detection) (s : Sys) :
  let a := app s in
  let a' := app (exec (recordAlert d) s) in
  isDetecting a' = isDetecting a /\ detections a' = detections a
  /\ stats a' = stats a /\ sensitivity a' = sensitivity a
  /\ showSettings a' = showSettings a.
Proof.
  unfold exec, recordAlert. destruct (hasMask d); cbn; repeat split.
Qed.

(** ** Scheduler *)

Lemma handle_timers (ev : Event) (p : Page) :
  activeIntervals (handle ev p) = activeIntervals p
  /\ nextIntervalId (handle ev p) = nextIntervalId p
  /\ cleanup (handle ev p) = cleanup p.
Proof.
  destruct ev; cbn; try (repeat split; reflexivity).
  destruct (existsb _ _); repeat split; reflexivity.
Qed.

Lemma handle_isDetecting (ev : Event) (p : Page) :
  isDetecting (ui (handle ev p)) =
  match ev with
  | ClickToggle => negb (isDetecting (ui p))
  | _ => isDetecting (ui p)
  end.
Proof.
  destruct ev; try reflexivity.
  unfold handle, ui. destruct (existsb _ _); [|reflexivity].
  cbn [countTick runHandler sys].
  apply (simulateDetection_cells (sys p)).
Qed.

Lemma handle_sensitivity (ev : Event) (p : Page) :
  sensitivity (ui (handle ev p)) =
  match ev with
  | SlideSensitivity value => value
  | _ => sensitivity (ui p)
  end.
Proof.
  destruct ev; try reflexivity.
  unfold handle, ui. destruct (existsb _ _); [|reflexivity].
  cbn [countTick runHandler sys].
  apply (simulateDetection_cells (sys p)).
Qed.

Lemma depsChanged_same (a b : AppState) :
  isDetecting b = isDetecting a -> sensitivity b = sensitivity a ->
  depsChanged a b = false.
Proof.
  intros Hd Hs. unfold depsChanged. rewrite Hd, Hs.
  rewrite Bool.eqb_reflx, Qeq_bool_refl. reflexivity.
Qed.

Lemma depsChanged_false_isDetecting (a b : AppState) :
  depsChanged a b = false -> isDetecting b = isDetecting a.
Proof.
  unfold depsChanged. intros H. apply orb_false_elim in H as [H _].
  apply negb_false_iff, Bool.eqb_prop in H. congruence.
Qed.

(** The effect neither reads nor writes the cells. *)
Lemma commit_sys (before : AppState) (p : Page) :
  sys (commit before p) = sys p /\ ticksRun (commit before p) = ticksRun p.
Proof.
  unfold commit, detectionEffect, runCleanup.
  destruct (depsChanged _ _); [|split; reflexivity].
  destruct (cleanup p); cbn; destruct (isDetecting _); split; reflexivity.
Qed.

Lemma commit_timerInv (before : AppState) (p : Page) :
  timerInvFor (isDetecting before) p -> timerInv (commit before p).
Proof.
  unfold timerInv, timerInvFor, commit, ui.
  destruct (depsChanged before (app (sys p))) eqn:Hdeps.
  - intros H.
    unfold detectionEffect, runCleanup, setInterval, clearInterval,
      withCleanup.
    destruct (cleanup p) as [interval|]; destruct H as [_ Hact];
      cbn [sys activeIntervals nextIntervalId cleanup ticksRun];
      rewrite Hact;
      destruct (isDetecting (app (sys p))) eqn:Hd; cbn;
      rewrite ?Nat.eqb_refl, ?Hd; cbn; split; reflexivity.
  - apply depsChanged_false_isDetecting in Hdeps. rewrite Hdeps. trivial.
Qed.

Lemma dispatch_timerInv (p : Page) (ev : Event) :
  timerInv p -> timerInv (dispatch p ev).
Proof.
  intros H. unfold dispatch. apply commit_timerInv.
  unfold timerInv, timerInvFor in *.
  destruct (handle_timers ev p) as (Ha & _ & Hc). rewrite Ha, Hc. exact H.
Qed.

Lemma mount_timerInv (e : Env) : timerInv (mount e).
Proof. split; reflexivity. Qed.

Lemma run_snoc (events : list Event) (ev : Event) (p : Page) :
  run (events ++ [ev]) p = dispatch (run events p) ev.
Proof. unfold run. rewrite fold_left_app. reflexivity. Qed.

(** Induction along a run: what holds at the start and survives every
    dispatch holds at the end. *)
Lemma run_invariant (P : Page -> Prop) (p : Page) :
  P p -> (forall q ev, P q -> P (dispatch q ev)) ->
  forall events, P (run events p).
Proof.
  intros H0 Hstep events. revert p H0.
  induction events as [|ev events IH]; intros p H0; cbn.
  - exact H0.
  - apply IH, Hstep, H0.
Qed.

Lemma dispatch_ui (p : Page) (ev : Event) :
  ui (dispatch p ev) = ui (handle ev p).
Proof.
  unfold ui, dispatch. now rewrite (proj1 (commit_sys _ _)).
Qed.

Lemma dispatch_ticksRun (p : Page) (ev : Event) :
  ticksRun (dispatch p ev) = ticksRun (handle ev p).
Proof. unfold dispatch. apply commit_sys. Qed.

Lemma handle_statsInv (ev : Event) (p : Page) :
  statsInv (stats (ui p)) -> statsInv (stats (ui (handle ev p))).
Proof.
  intros H. destruct ev as [| | value | | interval];
    [exact H | apply statsInv_zero | exact H | exact H | ].
  unfold handle, ui. destruct (existsb _ _); [|exact H].
  cbn [countTick runHandler sys].
  destruct (simulateDetection_cells (sys p)) as (_ & _ & _ & Hc).
  destruct (Qgtb _ _).
  - destruct Hc as (_ & -> & _). now apply statsInv_update.
  - destruct Hc as (_ & -> & _). exact H.
Qed.

Lemma handle_alerts_bounded (ev : Event) (p : Page) :
  (List.length (alerts (ui p)) <= 5)%nat ->
  (List.length (alerts (ui (handle ev p))) <= 5)%nat.
Proof.
  intros H. destruct ev as [| | value | | interval];
    [exact H | cbn; lia | exact H | exact H | ].
  unfold handle, ui. destruct (existsb _ _); [|exact H].
  cbn [countTick runHandler sys].
  destruct (simulateDetection_cells (sys p)) as (_ & _ & _ & Hc).
  destruct (Qgtb _ _).
  - destruct Hc as (_ & _ & ->).
    destruct (hasMask _); [exact H|].
    rewrite pushAlert_length. apply Nat.le_min_l.
  - destruct Hc as (_ & _ & ->). exact H.
Qed.

Lemma pageInv_mount (e : Env) : pageInv (mount e).
Proof.
  split; [apply mount_timerInv | apply statsInv_zero | cbn; lia].
Qed.

Lemma pageInv_dispatch (p : Page) (ev : Event) :
  pageInv p -> pageInv (dispatch p ev).
Proof.
  intros [Ht Hs Ha]. split.
  - now apply dispatch_timerInv.
  - rewrite dispatch_ui. now apply handle_statsInv.
  - rewrite dispatch_ui. now apply handle_alerts_bounded.
Qed.

Lemma pageInv_run (e : Env) (events : list Event) :
  pageInv (run events (mount e)).
Proof.
  apply run_invariant; [apply pageInv_mount | apply pageInv_dispatch].
Qed.

(** While stopped, with no interval live, an event other than the toggle
    runs no tick, starts no interval and leaves the display alone; unless
    it is the reset, it leaves the statistics and the alerts alone too. *)
Lemma dispatch_while_stopped (p : Page) (ev : Event) :
  timerInv p -> isDetecting (ui p) = false -> ev <> ClickToggle ->
  let q := dispatch p ev in
  isDetecting (ui q) = false
  /\ activeIntervals q = []
  /\ ticksRun q = ticksRun p
  /\ detections (ui q) = detections (ui p)
  /\ (ev <> ClickReset ->
      stats (ui q) = stats (ui p) /\ alerts (ui q) = alerts (ui p)).
Proof.
  intros Hinv Hstop Hev q.
  assert (Hq : timerInv q) by now apply dispatch_timerInv.
  assert (Hact : activeIntervals p = []).
  { unfold timerInv, timerInvFor in Hinv. rewrite Hstop in Hinv.
    destruct (cleanup p); destruct Hinv; [discriminate | assumption]. }
  assert (Hd : isDetecting (ui q) = false).
  { unfold q. rewrite dispatch_ui, handle_isDetecting.
    destruct ev; try exact Hstop. now elim Hev. }
  split; [exact Hd|]. split.
  { unfold timerInv, timerInvFor in Hq. rewrite Hd in Hq.
    destruct (cleanup q); destruct Hq; [discriminate | assumption]. }
  unfold q. rewrite dispatch_ticksRun, !dispatch_ui.
  destruct ev; cbn [handle]; try rewrite Hact; cbn;
    repeat split; try reflexivity; try (now elim Hev);
    try (intros Hr; now elim Hr).
Qed.

Lemma run_while_stopped (later : list Event) (q : Page) :
  timerInv q -> isDetecting (ui q) = false -> ~ In ClickToggle later ->
  let r := run later q in
  timerInv r
  /\ isDetecting (ui r) = false
  /\ activeIntervals r = []
  /\ ticksRun r = ticksRun q
  /\ detections (ui r) = detections (ui q)
  /\ (~ In ClickReset later ->
      stats (ui r) = stats (ui q) /\ alerts (ui r) = alerts (ui q)).
Proof.
  induction later as [|ev later IH] using rev_ind; intros Hinv Hstop Hno r.
  - unfold r; cbn. repeat split; try assumption.
    unfold timerInv, timerInvFor in Hinv. rewrite Hstop in Hinv.
    destruct (cleanup q); destruct Hinv; [discriminate | assumption].
  - assert (Hno' : ~ In ClickToggle later)
      by (intros H; apply Hno, in_or_app; now left).
    assert (Hev : ev <> ClickToggle)
      by (intros ->; apply Hno, in_or_app; right; now left).
    destruct (IH Hinv Hstop Hno') as (Ht & Hd & _ & Hn & Hdet & Hkeep).
    unfold r. rewrite run_snoc.
    destruct (dispatch_while_stopped (run later q) ev Ht Hd Hev)
      as (Hd' & Ha' & Hn' & Hdet' & Hkeep').
    split; [now apply dispatch_timerInv|].
    do 4 (split; [congruence|]).
    intros Hnr.
    assert (ev <> ClickReset /\ ~ In ClickReset later) as [He Hl].
    { split; [intros -> | intros Hin]; apply Hnr, in_or_app;
        [right; now left | now left]. }
    destruct (Hkeep Hl) as [Es Ea]. destruct (Hkeep' He) as [Es' Ea'].
    split; congruence.
Qed.

(** The toggle writes [isDetecting] and nothing else of the cells. *)
Lemma toggle_cells (p : Page) :
  let q := dispatch p ClickToggle in
  isDetecting (ui q) = negb (isDetecting (ui p))
  /\ detections (ui q) = detections (ui p)
  /\ stats (ui q) = stats (ui p)
  /\ alerts (ui q) = alerts (ui p)
  /\ ticksRun q = ticksRun p.
Proof.
  cbn zeta. rewrite dispatch_ticksRun, !dispatch_ui. repeat split.
Qed.

(** The reset changes neither dependency of the effect, so the render it
    causes leaves the timers alone. *)
Lemma dispatch_reset (p : Page) :
  dispatch p ClickReset = runHandler resetStats p.
Proof.
  unfold dispatch, commit. cbn [handle].
  rewrite depsChanged_same; reflexivity.
Qed.

Lemma simulateDetection_withSensitivity (value : Q) (s : Sys) :
  exec simulateDetection (withSensitivity value s)
  = withSensitivity value (exec simulateDetection s).
Proof.
  destruct s as [[rnd used clock read] [dt ds st al se sh]].
  unfold withSensitivity, setSensitivity. run_tick.
  destruct (Qgtb (rnd used) 0.6); run_tick;
    [destruct (Qgtb (rnd (S (S (S (S (S used)))))) 0.3); run_tick|];
    reflexivity.
Qed.

(** ** Runs of the definitions *)

(** The scenario of the specification: ticks with batches [[masked]], [[]],
    [[unmasked]] from the zero state. *)
Example scenario_three_ticks :
  let p := run [ClickToggle; IntervalDue 0; IntervalDue 0; IntervalDue 0]
               (mount scenarioEnv) in
  totalDetections (stats (ui p)) = 2
  /\ maskedCount (stats (ui p)) = 1
  /\ unmaskedCount (stats (ui p)) = 1
  /\ (complianceRate (stats (ui p)) == 50)%Q
  /\ alerts (ui p) = ["Alert: No mask detected at 10:15:00 AM"%string]
  /\ ticksRun p = 3%nat.
Proof. cbv zeta. repeat split; vm_compute; reflexivity. Qed.

(** A change of sensitivity while detecting replaces the interval: the old
    one is cleared before the new one is installed. *)
Example sensitivity_restarts_interval :
  let p := run [ClickToggle; SlideSensitivity 0.8] (mount maskedEnv) in
  activeIntervals p = [1%nat] /\ cleanup p = Some 1%nat
  /\ ticksRun (dispatch p (IntervalDue 0)) = 0%nat
  /\ ticksRun (dispatch p (IntervalDue 1)) = 1%nat.
Proof. cbv zeta. repeat split; vm_compute; reflexivity. Qed.

(** On doubles the ranges are met at both ends of the draw, the upper
    bounds of [x], [width] and [height] being attained. *)
Example double_ranges_at_extremes :
  Double.within 50 (Double.x 0) 550 = true
  /\ Double.within 50 (Double.x Double.maxDraw) 550 = true
  /\ Double.within 50 (Double.y 0) 350 = true
  /\ Double.within 50 (Double.y Double.maxDraw) 350 = true
  /\ Double.within 80 (Double.width 0) 120 = true
  /\ Double.within 80 (Double.width Double.maxDraw) 120 = true
  /\ Double.within 100 (Double.height 0) 140 = true
  /\ Double.within 100 (Double.height Double.maxDraw) 140 = true
  /\ Double.within Double.leastConfidence (Double.confidence 0) 1 = true
  /\ Double.within Double.leastConfidence
       (Double.confidence Double.maxDraw) 1 = true
  /\ Double.x Double.maxDraw = 550%float.
Proof. repeat split; vm_compute; reflexivity. Qed.

(** * The claims *)

(** C1.  Starting from the zero [Stats], after every update made by
    [updateStats] the counters satisfy
    [maskedCount + unmaskedCount = totalDetections]: for every sequence of
    batches folded into the zero state (a prefix of a sequence is a
    sequence, so this is the state after each update), and for every page
    reached from the first render by any sequence of events, timer ticks
    included. *)
Theorem stats_counts_balanced :
  (forall batches : list (list Detection),
      countsBalanced (statsAfter batches))
  /\ (forall (e : Env) (events : list Event),
         countsBalanced (stats (ui (run events (mount e))))).
Proof.
  split.
  - intros batches. apply inv_balanced, statsInv_statsAfter.
  - intros e events. apply inv_balanced, inv_stats, pageInv_run.
Qed.

(** C2, as the code has it.  In every [Stats] reached by updates from the
    zero state the compliance rate lies in [0,100]; it is 0 whenever
    [totalDetections] is 0, and it is 0 exactly when [maskedCount] is 0. *)
Theorem compliance_rate_range (batches : list (list Detection)) :
  let s := statsAfter batches in
  (0 <= complianceRate s <= 100)%Q
  /\ (totalDetections s = 0 -> (complianceRate s == 0)%Q)
  /\ ((complianceRate s == 0)%Q <-> maskedCount s = 0).
Proof.
  intros s. pose proof (statsInv_statsAfter batches) as Hinv. fold s in Hinv.
  destruct (rate_of_statsInv s Hinv) as [Hrange Hzero].
  split; [exact Hrange|]. split; [|exact Hzero].
  intros Htotal. apply Hzero.
  destruct Hinv as [Hm Hu Hb _]. unfold countsBalanced in Hb. lia.
Qed.

(** C2 as stated fails: after one update with a single unmasked detection
    the total is 1 and the compliance rate is 0. *)
Lemma compliance_rate_zero_with_detections :
  let s := statsAfter [[unmaskedFace]] in
  totalDetections s = 1
  /\ (complianceRate s == 0)%Q
  /\ ~ ((complianceRate s == 0)%Q <-> totalDetections s = 0).
Proof.
  cbn. split; [reflexivity|]. split; [reflexivity|].
  intros [H _]. specialize (H ltac:(reflexivity)). discriminate H.
Qed.

(** C3.  With every draw in [0,1): when the presence draw does not exceed
    0.6 the tick's result is the empty list; otherwise it is exactly one
    detection with x in [50,550], y in [50,350], width in [80,120], height
    in [100,140], confidence in [0.7,1.0], and a mask status that is true
    exactly when the mask draw exceeds 0.3.  The result never holds more
    than one detection. *)
Theorem simulateDetection_result (s : Sys) :
  (forall n, 0 <= draws (env s) n < 1)%Q ->
  let result := detections (app (exec simulateDetection s)) in
  ((drawAt s 0 <= 0.6)%Q -> result = [])
  /\ ((0.6 < drawAt s 0)%Q ->
      exists d, result = [d]
        /\ (50 <= x d <= 550)%Q /\ (50 <= y d <= 350)%Q
        /\ (80 <= width d <= 120)%Q /\ (100 <= height d <= 140)%Q
        /\ (0.7 <= confidence d <= 1.0)%Q
        /\ (hasMask d = true <-> (0.3 < drawAt s 5)%Q))
  /\ (List.length result <= 1)%nat.
Proof.
  intros Hdraws result.
  destruct (simulateDetection_cells s) as (_ & _ & _ & Hc).
  fold result in Hc.
  destruct (Qgtb (drawAt s 0) 0.6) eqn:Hp.
  - destruct Hc as (Hres & _). apply Qgtb_true in Hp.
    split; [intros Hle; lra|]. split; [|rewrite Hres; cbn; lia].
    intros _. exists (synthesized s). split; [exact Hres|].
    unfold synthesized, drawAt; cbn [x y width height confidence hasMask].
    pose proof (Hdraws (1 + drawsUsed (env s))%nat).
    pose proof (Hdraws (2 + drawsUsed (env s))%nat).
    pose proof (Hdraws (3 + drawsUsed (env s))%nat).
    pose proof (Hdraws (4 + drawsUsed (env s))%nat).
    pose proof (Hdraws (6 + drawsUsed (env s))%nat).
    repeat (split; [lra|]). apply Qgtb_true.
  - destruct Hc as (Hres & _). apply Qgtb_false in Hp.
    split; [intros _; exact Hres|]. split; [intros Hlt; lra|].
    rewrite Hres; cbn; lia.
Qed.

Lemma simulateDetection_result_witness :
  exists d, detections (app (exec simulateDetection maskedSys)) = [d]
    /\ (50 <= x d <= 550)%Q /\ (50 <= y d <= 350)%Q
    /\ (80 <= width d <= 120)%Q /\ (100 <= height d <= 140)%Q
    /\ (0.7 <= confidence d <= 1.0)%Q
    /\ (hasMask d = true <-> (0.3 < drawAt maskedSys 5)%Q).
Proof.
  assert (Hdraws : (forall n, 0 <= draws (env maskedSys) n < 1)%Q)
    by (intros n; cbn; split; [discriminate | reflexivity]).
  destruct (simulateDetection_result maskedSys Hdraws) as (_ & Hpresent & _).
  apply Hpresent. reflexivity.
Defined.

(** C4.  For every alert log and every detection: for a detection without
    a mask, [recordAlert] puts exactly one formatted entry at the front and
    keeps the first five entries of the result, so the oldest are dropped
    first; for a masked detection the log is unchanged.  Hence a log of at
    most five entries stays so, and no page reached from the first render
    shows more than five alerts. *)
Theorem recordAlert_bounded_log :
  (forall (d : Detection) (s : Sys),
     let log := alerts (app s) in
     let log' := alerts (app (exec (recordAlert d) s)) in
     let entry := alertMessage (instantAt s 0) in
     (hasMask d = false ->
        log' = entry :: firstn 4 log
        /\ log' = firstn 5 (entry :: log)
        /\ List.length log' = Nat.min 5 (S (List.length log)))
     /\ (hasMask d = true -> log' = log)
     /\ ((List.length log <= 5)%nat -> (List.length log' <= 5)%nat))
  /\ (forall (e : Env) (events : list Event),
        (List.length (alerts (ui (run events (mount e)))) <= 5)%nat).
Proof.
  split.
  - intros d s log log' entry. unfold log'. rewrite recordAlert_alerts.
    fold log entry. destruct (hasMask d).
    + split; [discriminate|]. split; [reflexivity|]. trivial.
    + split; [|split; [discriminate|]].
      * intros _. split; [reflexivity|]. split; [reflexivity|].
        apply pushAlert_length.
      * intros _. rewrite pushAlert_length. apply Nat.le_min_l.
  - intros e events. apply inv_alerts, pageInv_run.
Qed.

Lemma recordAlert_bounded_log_witness :
  alerts (app (exec (recordAlert unmaskedFace) fullLogSys))
  = ["Alert: No mask detected at 10:15:00 AM"; "a5"; "a4"; "a3"; "a2"]%string
  /\ alerts (app (exec (recordAlert maskedFace) fullLogSys)) = fullLog.
Proof.
  destruct recordAlert_bounded_log as [Hrecord _]. split.
  - destruct (Hrecord unmaskedFace fullLogSys) as (Hun & _ & _).
    destruct (Hun eq_refl) as (Hfront & _). exact Hfront.
  - destruct (Hrecord maskedFace fullLogSys) as (_ & Hm & _).
    exact (Hm eq_refl).
Defined.

(** C5.  Whatever the statistics and the alert log were, [resetStats]
    leaves [totalDetections], [maskedCount], [unmaskedCount] and
    [complianceRate] at 0 and the alert log empty; so does the reset button
    on any page. *)
Theorem resetStats_zeroes :
  (forall s : Sys,
     let a := app (exec resetStats s) in
     totalDetections (stats a) = 0 /\ maskedCount (stats a) = 0
     /\ unmaskedCount (stats a) = 0 /\ complianceRate (stats a) = 0%Q
     /\ alerts a = [])
  /\ (forall p : Page,
        stats (ui (dispatch p ClickReset)) = zeroStats
        /\ alerts (ui (dispatch p ClickReset)) = []).
Proof.
  split.
  - intros s. cbn. repeat split.
  - intros p. rewrite dispatch_reset. split; reflexivity.
Qed.

(** C6.  A tick yields an empty batch exactly when the presence draw does
    not exceed 0.6; such a tick sets the displayed detections to the empty
    list and leaves the statistics and the alert log unchanged. *)
Theorem tick_empty_batch_frame (s : Sys) :
  let s' := exec simulateDetection s in
  ((drawAt s 0 <= 0.6)%Q <-> detections (app s') = [])
  /\ (detections (app s') = [] ->
      stats (app s') = stats (app s) /\ alerts (app s') = alerts (app s)).
Proof.
  intros s'. destruct (simulateDetection_cells s) as (_ & _ & _ & Hc).
  fold s' in Hc. destruct (Qgtb (drawAt s 0) 0.6) eqn:Hp.
  - destruct Hc as (Hres & _). apply Qgtb_true in Hp. rewrite Hres.
    split; [split; [intros Hle; lra | discriminate] | discriminate].
  - destruct Hc as (Hres & Hs & Ha). apply Qgtb_false in Hp.
    split; [split; [intros _; exact Hres | intros _; exact Hp]|].
    intros _. split; assumption.
Qed.

Lemma tick_empty_batch_frame_witness :
  detections (app (exec simulateDetection emptySys)) = []
  /\ stats (app (exec simulateDetection emptySys)) = stats (app emptySys)
  /\ alerts (app (exec simulateDetection emptySys)) = alerts (app emptySys).
Proof.
  split; [reflexivity|].
  destruct (tick_empty_batch_frame emptySys) as [_ Hframe].
  apply Hframe. reflexivity.
Defined.

(** C7.  For every [Stats] and every two batches, updating with the first
    and then the second gives the same [Stats], compliance rate included,
    as updating with the second and then the first, and the same as one
    update with their concatenation. *)
Theorem updateStats_order_independent (s : Stats) (b1 b2 : list Detection) :
  updateStatsFn b2 (updateStatsFn b1 s) = updateStatsFn b1 (updateStatsFn b2 s)
  /\ updateStatsFn b2 (updateStatsFn b1 s) = updateStatsFn (b1 ++ b2) s.
Proof.
  unfold updateStatsFn.
  cbn [totalDetections maskedCount unmaskedCount].
  split; apply stats_of_counters;
    rewrite ?filter_app, ?length_app, ?Nat2Z.inj_add; lia.
Qed.

(** C8.  For any two sensitivity values in [0.5,1.0], a tick run on the
    same cells, the same draws and the same clock yields identical
    detections, identical statistics and an identical alert log, and reads
    the same draws and instants: the sensitivity is carried along
    untouched and influences nothing. *)
Theorem sensitivity_inert (v1 v2 : Q) (s : Sys) :
  (0.5 <= v1 <= 1)%Q -> (0.5 <= v2 <= 1)%Q ->
  let s1 := exec simulateDetection (withSensitivity v1 s) in
  let s2 := exec simulateDetection (withSensitivity v2 s) in
  detections (app s1) = detections (app s2)
  /\ stats (app s1) = stats (app s2)
  /\ alerts (app s1) = alerts (app s2)
  /\ env s1 = env s2
  /\ sensitivity (app s1) = v1 /\ sensitivity (app s2) = v2.
Proof.
  intros _ _ s1 s2. unfold s1, s2.
  rewrite !simulateDetection_withSensitivity.
  repeat split.
Qed.

Lemma sensitivity_inert_witness :
  let s1 := exec simulateDetection (withSensitivity 0.5 unmaskedSys) in
  let s2 := exec simulateDetection (withSensitivity 1.0 unmaskedSys) in
  detections (app s1) = detections (app s2)
  /\ stats (app s1) = stats (app s2)
  /\ alerts (app s1) = alerts (app s2)
  /\ env s1 = env s2
  /\ sensitivity (app s1) = 0.5%Q /\ sensitivity (app s2) = 1.0%Q.
Proof.
  apply (sensitivity_inert 0.5 1.0 unmaskedSys);
    split; discriminate.
Defined.

(** C9, as the code has it.  On a page reached from the first render with
    detection running, the toggle stops it: the flag is false and no
    interval is live.  The displayed detections are left as they were (they
    are not cleared), and so are the statistics.  Until the next toggle no
    tick runs, whatever else happens, the timers coming due included, and
    the display keeps its content; without a reset the statistics keep
    theirs.  The toggle that restarts detection leaves the statistics
    unchanged. *)
Theorem stop_detection_frame (e : Env) (events : list Event) :
  let p := run events (mount e) in
  isDetecting (ui p) = true ->
  let q := dispatch p ClickToggle in
  isDetecting (ui q) = false
  /\ activeIntervals q = []
  /\ detections (ui q) = detections (ui p)
  /\ stats (ui q) = stats (ui p)
  /\ (forall later : list Event,
        ~ In ClickToggle later ->
        let r := run later q in
        ticksRun r = ticksRun q
        /\ activeIntervals r = []
        /\ isDetecting (ui r) = false
        /\ detections (ui r) = detections (ui p)
        /\ (~ In ClickReset later -> stats (ui r) = stats (ui p))
        /\ isDetecting (ui (dispatch r ClickToggle)) = true
        /\ stats (ui (dispatch r ClickToggle)) = stats (ui r)).
Proof.
  intros p Hrun q.
  assert (Hp : timerInv p) by apply inv_timer, pageInv_run.
  assert (Hq : timerInv q) by now apply dispatch_timerInv.
  destruct (toggle_cells p) as (Hd & Hdet & Hs & _ & _). fold q in Hd, Hdet, Hs.
  rewrite Hrun in Hd. cbn in Hd.
  split; [exact Hd|]. split.
  { unfold timerInv, timerInvFor in Hq. rewrite Hd in Hq.
    destruct (cleanup q); destruct Hq; [discriminate | assumption]. }
  split; [exact Hdet|]. split; [exact Hs|].
  intros later Hno r.
  destruct (run_while_stopped later q Hq Hd Hno)
    as (_ & Hd' & Ha' & Hn' & Hdet' & Hkeep). fold r in Hd', Ha', Hn', Hdet', Hkeep.
  destruct (toggle_cells r) as (Hd'' & _ & Hs'' & _ & _).
  rewrite Hd' in Hd''.
  repeat split; try assumption; try congruence.
  intros Hnr. destruct (Hkeep Hnr) as [-> _]. exact Hs.
Qed.

Lemma stop_detection_frame_witness :
  let p := run runningEvents (mount maskedEnv) in
  let q := dispatch p ClickToggle in
  isDetecting (ui p) = true
  /\ isDetecting (ui q) = false
  /\ activeIntervals q = []
  /\ detections (ui q) = detections (ui p)
  /\ stats (ui q) = stats (ui p)
  /\ ticksRun (run [IntervalDue 0; IntervalDue 1; ClickSettings] q)
     = ticksRun q.
Proof.
  cbn zeta. split; [reflexivity|].
  destruct (stop_detection_frame maskedEnv runningEvents eq_refl)
    as (Hd & Ha & Hdet & Hs & Hlater).
  split; [exact Hd|]. split; [exact Ha|]. split; [exact Hdet|].
  split; [exact Hs|].
  apply (Hlater [IntervalDue 0; IntervalDue 1; ClickSettings]).
  intros [H|[H|[H|[]]]]; discriminate H.
Defined.

(** C9 as stated fails: stopping does not clear the display.  After
    detection was started and a tick synthesized a detection, the toggle
    sets the flag to false and the detection is still displayed. *)
Lemma stop_does_not_clear_display :
  let p := run runningEvents (mount maskedEnv) in
  let q := dispatch p ClickToggle in
  isDetecting (ui p) = true
  /\ isDetecting (ui q) = false
  /\ detections (ui q) = [synthesized (sys (run [ClickToggle] (mount maskedEnv)))]
  /\ detections (ui q) <> [].
Proof.
  cbn zeta. repeat split; try reflexivity. discriminate.
Qed.

(** C10.  On every page the reset leaves the displayed detections and the
    detecting flag unchanged, and with them the sensitivity, the settings
    flag, the world, the timers and the tick count: it changes the
    statistics and the alert log only. *)
Theorem resetStats_frame (p : Page) :
  let q := dispatch p ClickReset in
  detections (ui q) = detections (ui p)
  /\ isDetecting (ui q) = isDetecting (ui p)
  /\ sensitivity (ui q) = sensitivity (ui p)
  /\ showSettings (ui q) = showSettings (ui p)
  /\ env (sys q) = env (sys p)
  /\ activeIntervals q = activeIntervals p
  /\ nextIntervalId q = nextIntervalId p
  /\ cleanup q = cleanup p
  /\ ticksRun q = ticksRun p.
Proof.
  cbn zeta. rewrite dispatch_reset. repeat split.
Qed.

(** * Further properties *)

(** ** Pages *)

Lemma commit_fresh (before : AppState) (p : Page) :
  (forall i, In i (activeIntervals p) -> (i < nextIntervalId p)%nat) ->
  forall i, In i (activeIntervals (commit before p)) ->
            (i < nextIntervalId (commit before p))%nat.
Proof.
  intros H i. unfold commit.
  destruct (depsChanged before (app (sys p))); [|apply H].
  unfold detectionEffect, runCleanup, setInterval, clearInterval, withCleanup.
  assert (Hfilter : forall j k, In k (filter (fun i0 => negb (i0 =? j)%nat)
                                        (activeIntervals p)) ->
                                (k < nextIntervalId p)%nat).
  { intros j k Hk. apply filter_In in Hk. apply H, Hk. }
  destruct (cleanup p) as [j|];
    cbn [sys activeIntervals nextIntervalId cleanup ticksRun];
    destruct (isDetecting (app (sys p)));
    cbn [sys activeIntervals nextIntervalId cleanup ticksRun];
    intros Hin.
  - destruct Hin as [<-|Hin]; [lia|]. apply Hfilter in Hin. lia.
  - now apply Hfilter in Hin.
  - destruct Hin as [<-|Hin]; [lia|]. apply H in Hin. lia.
  - now apply H.
Qed.

(** The cells after an interval that is live came due. *)
Lemma handle_tick (interval : nat) (p : Page) :
  existsb (Nat.eqb interval) (activeIntervals p) = true ->
  ui (handle (IntervalDue interval) p) = app (exec simulateDetection (sys p))
  /\ ticksRun (handle (IntervalDue interval) p) = S (ticksRun p).
Proof.
  intros Hlive. unfold handle, ui. rewrite Hlive. split; reflexivity.
Qed.

Lemma handle_stale (interval : nat) (p : Page) :
  existsb (Nat.eqb interval) (activeIntervals p) = false ->
  handle (IntervalDue interval) p = p.
Proof. intros Hdead. unfold handle. now rewrite Hdead. Qed.

Lemma runInv_mount (e : Env) : runInv (mount e).
Proof.
  split; cbn; lia.
Qed.

Lemma runInv_dispatch (p : Page) (ev : Event) :
  pageInv p -> runInv p -> runInv (dispatch p ev).
Proof.
  intros [_ [_ Hu _ _] _] [Hfresh Hsingle Halerts Hticks].
  split.
  - unfold dispatch. apply commit_fresh.
    destruct (handle_timers ev p) as (-> & -> & _). exact Hfresh.
  - rewrite dispatch_ui.
    destruct ev as [| | value | | interval];
      [exact Hsingle | exact Hsingle | exact Hsingle | exact Hsingle | ].
    destruct (existsb (Nat.eqb interval) (activeIntervals p)) eqn:Hlive.
    + rewrite (proj1 (handle_tick interval p Hlive)).
      destruct (simulateDetection_cells (sys p)) as (_ & _ & _ & Hc).
      destruct (Qgtb _ _); destruct Hc as (-> & _); cbn; lia.
    + rewrite (handle_stale interval p Hlive). exact Hsingle.
  - rewrite dispatch_ui.
    destruct ev as [| | value | | interval];
      [exact Halerts | reflexivity | exact Halerts | exact Halerts | ].
    destruct (existsb (Nat.eqb interval) (activeIntervals p)) eqn:Hlive.
    + rewrite (proj1 (handle_tick interval p Hlive)).
      destruct (simulateDetection_cells (sys p)) as (_ & _ & _ & Hc).
      destruct (Qgtb _ _).
      * destruct Hc as (_ & -> & ->).
        unfold updateStatsFn; cbn [unmaskedCount filter List.length].
        fold (ui p).
        destruct (hasMask (synthesized (sys p))); cbn [negb List.length].
        -- rewrite Z.add_0_r. exact Halerts.
        -- rewrite pushAlert_length, Halerts.
           replace (Z.to_nat (unmaskedCount (stats (ui p)) + Z.of_nat 1))
             with (S (Z.to_nat (unmaskedCount (stats (ui p))))) by lia.
           lia.
      * destruct Hc as (_ & -> & ->). exact Halerts.
    + rewrite (handle_stale interval p Hlive). exact Halerts.
  - rewrite dispatch_ui, dispatch_ticksRun.
    destruct ev as [| | value | | interval];
      [exact Hticks | cbn; lia | exact Hticks | exact Hticks | ].
    destruct (existsb (Nat.eqb interval) (activeIntervals p)) eqn:Hlive.
    + destruct (handle_tick interval p Hlive) as [-> ->].
      destruct (simulateDetection_cells (sys p)) as (_ & _ & _ & Hc).
      destruct (Qgtb _ _).
      * destruct Hc as (_ & -> & _).
        unfold updateStatsFn; cbn [totalDetections List.length].
        fold (ui p). lia.
      * destruct Hc as (_ & -> & _). fold (ui p). lia.
    + rewrite (handle_stale interval p Hlive). exact Hticks.
Qed.

Lemma runInv_run (e : Env) (events : list Event) :
  pageInv (run events (mount e)) /\ runInv (run events (mount e)).
Proof.
  apply (run_invariant (fun p => pageInv p /\ runInv p)).
  - split; [apply pageInv_mount | apply runInv_mount].
  - intros q ev [Hp Hr]. split;
      [now apply pageInv_dispatch | now apply runInv_dispatch].
Qed.

(** X1.  On every page reached from the first render, exactly one interval
    is live while detecting and none while stopped; the live one is the one
    the pending cleanup will clear, and its id was issued before. *)
Theorem single_live_interval (e : Env) (events : list Event) :
  let p := run events (mount e) in
  if isDetecting (ui p)
  then exists i, activeIntervals p = [i] /\ cleanup p = Some i
                 /\ (i < nextIntervalId p)%nat
  else activeIntervals p = [] /\ cleanup p = None.
Proof.
  intros p. destruct (runInv_run e events) as [[Ht _ _] [Hfresh _ _ _]].
  fold p in Ht, Hfresh. unfold timerInv, timerInvFor in Ht.
  destruct (cleanup p) as [i|] eqn:Hc; destruct Ht as [-> Hact].
  - exists i. repeat split; try assumption.
    apply Hfresh. rewrite Hact. now left.
  - split; [assumption | reflexivity].
Qed.

(** X2.  On every page reached from the first render at most one detection
    is on display: the list of current detections shows its placeholder
    text or exactly one row. *)
Theorem detections_panel_single_row (exponentNotation : Q -> string)
  (e : Env) (events : list Event) :
  let a := ui (run events (mount e)) in
  (List.length (detections a) <= 1)%nat
  /\ match detectionsPanel exponentNotation a with
     | inl text => text = "No faces detected"%string /\ detections a = []
     | inr rows =>
         exists d, detections a = [d]
                   /\ rows = [detectionRow exponentNotation d]
     end.
Proof.
  intros a. destruct (runInv_run e events) as [_ [_ Hsingle _ _]].
  fold a in Hsingle. split; [exact Hsingle|].
  unfold detectionsPanel.
  destruct (detections a) as [|d [|d' rest]]; cbn in *.
  - split; reflexivity.
  - exists d. split; reflexivity.
  - lia.
Qed.

(** X3.  On every page reached from the first render the alert log holds
    as many entries as unmasked detections were counted since the last
    reset, up to five; the list of alerts shows its placeholder text
    exactly while that count is zero. *)
Theorem alert_count_tracks_unmasked (e : Env) (events : list Event) :
  let a := ui (run events (mount e)) in
  List.length (alerts a) = Nat.min 5 (Z.to_nat (unmaskedCount (stats a)))
  /\ (alertsPanel a = inl "No alerts"%string
      <-> unmaskedCount (stats a) = 0).
Proof.
  intros a.
  destruct (runInv_run e events) as [[_ [_ Hu _ _] _] [_ _ Hcount _]].
  fold a in Hu, Hcount. split; [exact Hcount|].
  unfold alertsPanel. rewrite Hcount.
  destruct (Z.to_nat (unmaskedCount (stats a))) as [|n] eqn:Hn.
  - cbn. split; [intros _; lia | reflexivity].
  - replace (Nat.min 5 (S n)) with (S (Nat.min 4 n)) by lia. cbn [Nat.eqb].
    split; [discriminate | lia].
Qed.

(** X4.  A tick counts exactly what it displays: each counter grows by the
    number of detections of that kind now on display, so by at most one,
    and no counter ever decreases. *)
Theorem tick_counts_what_it_displays (s : Sys) :
  let a := app s in
  let a' := app (exec simulateDetection s) in
  totalDetections (stats a')
  = totalDetections (stats a) + Z.of_nat (List.length (detections a'))
  /\ maskedCount (stats a')
     = maskedCount (stats a)
       + Z.of_nat (List.length (filter (fun d => hasMask d) (detections a')))
  /\ unmaskedCount (stats a')
     = unmaskedCount (stats a)
       + Z.of_nat
           (List.length (filter (fun d => negb (hasMask d)) (detections a')))
  /\ totalDetections (stats a) <= totalDetections (stats a')
     <= totalDetections (stats a) + 1.
Proof.
  intros a a'. destruct (simulateDetection_cells s) as (_ & _ & _ & Hc).
  fold a a' in Hc. destruct (Qgtb (drawAt s 0) 0.6).
  - destruct Hc as (-> & -> & _). unfold updateStatsFn.
    cbn [totalDetections maskedCount unmaskedCount List.length].
    repeat split; lia.
  - destruct Hc as (-> & -> & _). cbn [filter List.length].
    repeat split; lia.
Qed.

(** X5.  On every page reached from the first render no more detections
    are counted than timer callbacks have run. *)
Theorem total_bounded_by_ticks (e : Env) (events : list Event) :
  let p := run events (mount e) in
  0 <= totalDetections (stats (ui p)) <= Z.of_nat (ticksRun p).
Proof.
  intros p.
  destruct (runInv_run e events) as [[_ [Hm Hu Hb _] _] [_ _ _ Hticks]].
  fold p in Hm, Hu, Hb, Hticks. unfold countsBalanced in Hb. lia.
Qed.


(** Different integers print differently. *)
Lemma numberToString_inj (a b : Z) :
  numberToString a = numberToString b -> a = b.
Proof.
  unfold numberToString. intros H.
  assert (Hnil : forall z, Z.to_int z <> Decimal.Pos Decimal.Nil
                           /\ Z.to_int z <> Decimal.Neg Decimal.Nil).
  { intros [|p|p]; cbn; split; try discriminate;
      intros E; injection E; apply Unsigned.to_uint_nonnil. }
  apply (f_equal NilZero.int_of_string) in H.
  rewrite !NilZero.isi in H by apply Hnil.
  injection H. apply to_int_inj.
Qed.

(** X7.  An update with the empty batch never changes a counter, and it
    leaves every [Stats] reached by updates from the zero state as it was;
    a [Stats] whose rate does not follow from its counters has it
    recomputed. *)
Theorem updateStats_empty_batch :
  (forall s : Stats,
     totalDetections (updateStatsFn [] s) = totalDetections s
     /\ maskedCount (updateStatsFn [] s) = maskedCount s
     /\ unmaskedCount (updateStatsFn [] s) = unmaskedCount s)
  /\ (forall batches : list (list Detection),
        updateStatsFn [] (statsAfter batches) = statsAfter batches)
  /\ complianceRate (updateStatsFn [] (mkStats 0 0 0 42)) = 0%Q.
Proof.
  split; [|split; [|reflexivity]].
  - intros s. unfold updateStatsFn; cbn. repeat split; lia.
  - intros batches. destruct (statsInv_statsAfter batches) as [_ _ _ Hr].
    destruct (statsAfter batches) as [t m u r]. cbn in Hr. subst r.
    unfold updateStatsFn. cbn [totalDetections maskedCount unmaskedCount
                               filter List.length Z.of_nat].
    apply stats_of_counters; lia.
Qed.

(** X8.  A tick that displays nothing has read one draw and no instant; a
    tick that displays a detection has read seven draws and two instants,
    and a third instant when the detection is unmasked.  The streams
    themselves are left as they were. *)
Theorem tick_reads_of_the_world (s : Sys) :
  let s' := exec simulateDetection s in
  draws (env s') = draws (env s)
  /\ instants (env s') = instants (env s)
  /\ match detections (app s') with
     | [] => drawsUsed (env s') = (1 + drawsUsed (env s))%nat
             /\ instantsUsed (env s') = instantsUsed (env s)
     | d :: _ =>
         drawsUsed (env s') = (7 + drawsUsed (env s))%nat
         /\ instantsUsed (env s')
            = ((if hasMask d then 2 else 3) + instantsUsed (env s))%nat
     end.
Proof.
  intros s'. destruct (simulateDetection_env s) as (Hd & Hi & Hdu & Hiu).
  destruct (simulateDetection_cells s) as (_ & _ & _ & Hc).
  fold s' in Hd, Hi, Hdu, Hiu, Hc.
  split; [exact Hd|]. split; [exact Hi|].
  destruct (Qgtb (drawAt s 0) 0.6).
  - destruct Hc as (-> & _). split; assumption.
  - destruct Hc as (-> & _). split; assumption.
Qed.

(** X9.  On every page reached from the first render, moving the
    sensitivity slider writes the sensitivity and no other cell and runs
    no tick.  When the value is the one already set the timers are left
    alone; otherwise, while detecting, the live interval is cleared and a
    new one with a fresh id is the only live one, and while stopped none
    is installed. *)
Theorem slide_sensitivity_restarts_interval
  (e : Env) (events : list Event) (value : Q) :
  let p := run events (mount e) in
  let q := dispatch p (SlideSensitivity value) in
  sensitivity (ui q) = value
  /\ isDetecting (ui q) = isDetecting (ui p)
  /\ detections (ui q) = detections (ui p)
  /\ stats (ui q) = stats (ui p)
  /\ alerts (ui q) = alerts (ui p)
  /\ ticksRun q = ticksRun p
  /\ if Qeq_bool (sensitivity (ui p)) value
     then activeIntervals q = activeIntervals p
          /\ nextIntervalId q = nextIntervalId p
     else if isDetecting (ui p)
          then activeIntervals q = [nextIntervalId p]
               /\ ~ In (nextIntervalId p) (activeIntervals p)
          else activeIntervals q = [].
Proof.
  intros p q.
  destruct (runInv_run e events) as [[Ht _ _] [Hfresh _ _ _]].
  fold p in Ht, Hfresh.
  unfold q. rewrite dispatch_ticksRun, !dispatch_ui.
  do 6 (split; [reflexivity|]).
  destruct (handle_timers (SlideSensitivity value) p) as (Ha & Hn & Hc).
  assert (Hdet : isDetecting (app (sys (handle (SlideSensitivity value) p)))
                 = isDetecting (ui p)) by reflexivity.
  assert (Hdeps : depsChanged (app (sys p))
                    (app (sys (handle (SlideSensitivity value) p)))
                  = negb (Qeq_bool (sensitivity (ui p)) value)).
  { unfold depsChanged. rewrite Hdet. unfold ui.
    rewrite Bool.eqb_reflx. reflexivity. }
  unfold dispatch, commit. rewrite Hdeps.
  remember (handle (SlideSensitivity value) p) as p' eqn:Hp'.
  destruct (Qeq_bool (sensitivity (ui p)) value); cbn [negb].
  - split; assumption.
  - unfold detectionEffect, runCleanup. rewrite Hc.
    unfold timerInv, timerInvFor in Ht.
    destruct (cleanup p) as [i|]; destruct Ht as [Hd Hact];
      unfold setInterval, clearInterval, withCleanup;
      cbn [sys activeIntervals nextIntervalId cleanup ticksRun];
      rewrite Hdet, Hd;
      cbn [sys activeIntervals nextIntervalId cleanup ticksRun].
    + rewrite Ha, Hn, Hact. cbn. rewrite Nat.eqb_refl. cbn.
      split; [reflexivity|].
      intros [Hin|[]]. specialize (Hfresh i). rewrite Hact in Hfresh.
      specialize (Hfresh (or_introl eq_refl)). lia.
    + rewrite Ha. exact Hact.
Qed.

(** X10.  Two ticks that each display a detection give them the same
    identifier exactly when their first clock reads returned the same
    millisecond. *)
Theorem detection_ids_follow_the_clock (s1 s2 : Sys) (d1 d2 : Detection) :
  detections (app (exec simulateDetection s1)) = [d1] ->
  detections (app (exec simulateDetection s2)) = [d2] ->
  (id d1 = id d2 <-> epochMs (instantAt s1 0) = epochMs (instantAt s2 0)).
Proof.
  intros H1 H2.
  destruct (simulateDetection_cells s1) as (_ & _ & _ & Hc1).
  destruct (simulateDetection_cells s2) as (_ & _ & _ & Hc2).
  destruct (Qgtb (drawAt s1 0) 0.6);
    [destruct Hc1 as (E1 & _) | destruct Hc1 as (E1 & _); congruence].
  destruct (Qgtb (drawAt s2 0) 0.6);
    [destruct Hc2 as (E2 & _) | destruct Hc2 as (E2 & _); congruence].
  rewrite H1 in E1. rewrite H2 in E2.
  injection E1 as ->. injection E2 as ->.
  unfold synthesized; cbn [id]. split.
  - intros H. cbn in H. injection H as H. now apply numberToString_inj.
  - intros ->. reflexivity.
Qed.

Lemma detection_ids_follow_the_clock_witness :
  id (synthesized maskedSys) = id (synthesized unmaskedSys)
  <-> epochMs (instantAt maskedSys 0) = epochMs (instantAt unmaskedSys 0).
Proof.
  exact (detection_ids_follow_the_clock maskedSys unmaskedSys
           (synthesized maskedSys) (synthesized unmaskedSys)
           eq_refl eq_refl).
Defined.

(** ** Camera *)

(** Stopping a list of tracks adds them to the stopped ones. *)
Lemma stopTracks_spec (tracks : list nat) (doc : Dom.Document) :
  let doc' := fold_left Dom.stopTrack tracks doc in
  Dom.videoRef doc' = Dom.videoRef doc
  /\ Dom.canvasRef doc' = Dom.canvasRef doc
  /\ Dom.consoleErrors doc' = Dom.consoleErrors doc
  /\ forall t, In t (Dom.stoppedTracks doc')
               <-> In t tracks \/ In t (Dom.stoppedTracks doc).
Proof.
  revert doc. induction tracks as [|track tracks IH]; intros doc; cbn.
  - repeat split; try reflexivity; tauto.
  - destruct (IH (Dom.stopTrack doc track)) as (Hv & Hc & He & Ht).
    repeat split; try assumption.
    + intros H. apply Ht in H. cbn in H. tauto.
    + intros H. apply Ht. cbn. tauto.
Qed.

Lemma stopCamera_spec (doc : Dom.Document) :
  (forall t, In t (Dom.stoppedTracks (stopCamera doc))
     <-> In t (attachedTracks doc) \/ In t (Dom.stoppedTracks doc))
  /\ Dom.videoRef (stopCamera doc) = Dom.videoRef doc
  /\ Dom.canvasRef (stopCamera doc) = Dom.canvasRef doc
  /\ Dom.consoleErrors (stopCamera doc) = Dom.consoleErrors doc.
Proof.
  unfold stopCamera, attachedTracks.
  destruct (Dom.videoRef doc) as [video|] eqn:Hv;
    [destruct (Dom.srcObject video) as [stream|] eqn:Hs|].
  - destruct (stopTracks_spec stream doc) as (H1 & H2 & H3 & H4).
    rewrite Hv in H1. repeat split; try assumption; apply H4.
  - rewrite Hv. repeat split; cbn; tauto.
  - rewrite Hv. repeat split; cbn; tauto.
Qed.

(** X11.  [stopCamera] stops the tracks of the stream attached to the video
    element and no other track, and changes nothing else: the stream stays
    attached.  Stopping a second time stops nothing more.  Without a video
    element, or without a stream on it, the document is left as it is. *)
Theorem stopCamera_stops_attached_tracks (doc : Dom.Document) :
  (forall t, In t (Dom.stoppedTracks (stopCamera doc))
             <-> In t (attachedTracks doc) \/ In t (Dom.stoppedTracks doc))
  /\ Dom.videoRef (stopCamera doc) = Dom.videoRef doc
  /\ Dom.canvasRef (stopCamera doc) = Dom.canvasRef doc
  /\ Dom.consoleErrors (stopCamera doc) = Dom.consoleErrors doc
  /\ (forall t, In t (Dom.stoppedTracks (stopCamera (stopCamera doc)))
                <-> In t (Dom.stoppedTracks (stopCamera doc)))
  /\ (attachedTracks doc = [] -> stopCamera doc = doc).
Proof.
  destruct (stopCamera_spec doc) as (Hstop & Hv & Hc & He).
  destruct (stopCamera_spec (stopCamera doc)) as (Hstop2 & _).
  assert (Hsame : attachedTracks (stopCamera doc) = attachedTracks doc)
    by (unfold attachedTracks; now rewrite Hv).
  rewrite Hsame in Hstop2.
  split; [exact Hstop|]. repeat (split; [assumption|]). split.
  - intros t. rewrite Hstop2, Hstop. tauto.
  - unfold attachedTracks, stopCamera.
    destruct (Dom.videoRef doc) as [video|]; [|reflexivity].
    destruct (Dom.srcObject video) as [stream|]; [|reflexivity].
    intros ->. reflexivity.
Qed.



(** X13.  A granted stream can stay live.  When no video element is
    attached at the time permission is granted, the stream is attached
    nowhere and [stopCamera] changes nothing; and when [stopCamera] has
    already run by the time permission is granted, the stream is attached
    to the video element and none of its tracks that were live before is
    stopped. *)
Theorem granted_stream_left_running (stream : Dom.MediaStream)
  (doc : Dom.Document) :
  (Dom.videoRef doc = None ->
   stopCamera (startCamera (Granted stream) doc) = doc)
  /\ (forall t, In t stream -> ~ In t (attachedTracks doc) ->
                ~ In t (Dom.stoppedTracks doc) ->
                ~ In t (Dom.stoppedTracks
                          (startCamera (Granted stream) (stopCamera doc))))
  /\ (Dom.videoRef doc <> None ->
      attachedTracks (startCamera (Granted stream) (stopCamera doc))
      = stream).
Proof.
  destruct (stopCamera_spec doc) as (Hstop & Hv & _).
  split; [|split].
  - intros Hnone. unfold startCamera, stopCamera. rewrite Hnone. cbn.
    now rewrite Hnone.
  - intros t _ Hatt Hlive Hin. apply Hlive.
    assert (E : Dom.stoppedTracks
                  (startCamera (Granted stream) (stopCamera doc))
                = Dom.stoppedTracks (stopCamera doc)).
    { unfold startCamera. destruct (Dom.videoRef (stopCamera doc));
        reflexivity. }
    rewrite E in Hin. apply Hstop in Hin. tauto.
  - intros Hsome. unfold startCamera, attachedTracks. rewrite Hv.
    destruct (Dom.videoRef doc) as [video|]; [reflexivity | now elim Hsome].
Qed.

Lemma granted_stream_left_running_witness :
  ~ In 1%nat (Dom.stoppedTracks
                (startCamera (Granted [1; 2]%nat) (stopCamera sampleDocument)))
  /\ attachedTracks
       (startCamera (Granted [1; 2]%nat) (stopCamera sampleDocument))
     = [1; 2]%nat.
Proof.
  destruct (granted_stream_left_running [1; 2]%nat sampleDocument)
    as (_ & Hlive & Hatt).
  split.
  - apply Hlive; cbn; tauto.
  - apply Hatt. discriminate.
Defined.

(** X14.  When the request is rejected, one error is logged with the
    reason, the video element, if there is one, gets the placeholder
    gradient as background and keeps its stream, and neither a track nor
    the canvas is touched. *)
Theorem startCamera_rejected_falls_back (err : string)
  (doc : Dom.Document) :
  let doc' := startCamera (Rejected err) doc in
  Dom.consoleErrors doc'
  = Dom.consoleErrors doc ++ [("Error accessing camera:"%string, err)]
  /\ Dom.stoppedTracks doc' = Dom.stoppedTracks doc
  /\ Dom.canvasRef doc' = Dom.canvasRef doc
  /\ attachedTracks doc' = attachedTracks doc
  /\ option_map Dom.background (Dom.videoRef doc')
     = option_map
         (fun _ => "linear-gradient(45deg, #1a1a2e, #16213e)"%string)
         (Dom.videoRef doc).
Proof.
  unfold startCamera, simulateCameraFeed, attachedTracks. cbn.
  destruct (Dom.videoRef doc) as [video|] eqn:Hv; cbn; rewrite ?Hv;
    repeat split.
Qed.

(** ** Overlay *)

Section Overlay.

Variable exponentNotation : Q -> string.

Lemma drawDetection_painted (ctx : Dom.Context2D) (d : Detection) :
  Dom.painted (drawDetection exponentNotation ctx d)
  = Dom.painted ctx ++ detectionShapes exponentNotation d.
Proof.
  unfold drawDetection, detectionShapes, Dom.fillText, Dom.fillRect,
    Dom.strokeRect, Dom.paint; cbn.
  rewrite <- !app_assoc. reflexivity.
Qed.

Lemma fold_drawDetection_painted (ds : list Detection)
  (ctx : Dom.Context2D) :
  Dom.painted (fold_left (drawDetection exponentNotation) ds ctx)
  = Dom.painted ctx ++ flat_map (detectionShapes exponentNotation) ds.
Proof.
  revert ctx. induction ds as [|d ds IH]; intros ctx; cbn [fold_left flat_map].
  - now rewrite app_nil_r.
  - rewrite IH, drawDetection_painted, <- app_assoc. reflexivity.
Qed.

(** The rectangle [drawDetections] clears is the whole bitmap. *)
Lemma clearRect_whole (canvas : Dom.Canvas) (ctx : Dom.Context2D) :
  Dom.painted
    (Dom.clearRect canvas 0 0 (Dom.width canvas) (Dom.height canvas) ctx)
  = [].
Proof.
  unfold Dom.clearRect.
  assert (Hw : Qle_bool (Dom.width canvas) (0 + Dom.width canvas) = true)
    by (apply Qle_bool_iff; rewrite Qplus_0_l; apply Qle_refl).
  assert (Hh : Qle_bool (Dom.height canvas) (0 + Dom.height canvas) = true)
    by (apply Qle_bool_iff; rewrite Qplus_0_l; apply Qle_refl).
  rewrite Hw, Hh. reflexivity.
Qed.

Lemma paintedOn_drawDetections (ds : list Detection) (d : Dom.Document) :
  paintedOn (drawDetections exponentNotation ds d)
  = match paintedOn d with
    | Some _ => Some (flat_map (detectionShapes exponentNotation) ds)
    | None => None
    end.
Proof.
  unfold paintedOn, drawDetections.
  destruct (Dom.canvasRef d) as [canvas|] eqn:Hc; [|now rewrite Hc].
  destruct (Dom.context canvas) as [ctx|] eqn:Hx; [|now rewrite Hc, Hx].
  cbn. rewrite fold_drawDetection_painted, clearRect_whole. reflexivity.
Qed.

Lemma page_runScreen (events : list Event) (s : Screen) :
  page (runScreen exponentNotation events s) = run events (page s).
Proof.
  unfold runScreen, run. revert s.
  induction events as [|ev events IH]; intros s; cbn [fold_left];
    [reflexivity | now rewrite IH].
Qed.

(** Only a tick replaces the displayed detections. *)
Lemma dispatch_keeps_detections (p : Page) (ev : Event) :
  setsDetections ev p = false ->
  detections (ui (dispatch p ev)) = detections (ui p).
Proof.
  intros H. rewrite dispatch_ui.
  destruct ev as [| | value | | interval]; try reflexivity.
  cbn in H. now rewrite (handle_stale interval p H).
Qed.

Lemma dispatchScreen_painted (s : Screen) (ev : Event) :
  paintedOn (doc s)
  = match paintedOn (doc s) with
    | Some _ =>
        Some (flat_map (detectionShapes exponentNotation)
                (detections (ui (page s))))
    | None => None
    end ->
  let s' := dispatchScreen exponentNotation s ev in
  paintedOn (doc s')
  = match paintedOn (doc s) with
    | Some _ =>
        Some (flat_map (detectionShapes exponentNotation)
                (detections (ui (page s'))))
    | None => None
    end.
Proof.
  intros Hinv. unfold dispatchScreen; cbn [page doc].
  destruct (setsDetections ev (page s)) eqn:Hsets.
  - apply paintedOn_drawDetections.
  - rewrite (dispatch_keeps_detections _ _ Hsets). exact Hinv.
Qed.

End Overlay.

(** X15.  After [drawDetections] the canvas shows, for each detection in
    order, its box, its label strip and its label, and nothing else:
    whatever was painted before is gone, and the styles an earlier drawing
    left in the context do not show.  Without a canvas or without a
    context nothing is changed; the video element, the tracks and the
    console are never touched. *)
Theorem drawDetections_paints_current (exponentNotation : Q -> string)
  (ds : list Detection) (d : Dom.Document) :
  let d' := drawDetections exponentNotation ds d in
  paintedOn d'
  = match paintedOn d with
    | Some _ => Some (flat_map (detectionShapes exponentNotation) ds)
    | None => None
    end
  /\ (paintedOn d = None -> d' = d)
  /\ Dom.videoRef d' = Dom.videoRef d
  /\ Dom.stoppedTracks d' = Dom.stoppedTracks d
  /\ Dom.consoleErrors d' = Dom.consoleErrors d.
Proof.
  intros d'. split; [apply paintedOn_drawDetections|].
  unfold d', paintedOn, drawDetections.
  destruct (Dom.canvasRef d) as [canvas|]; [|repeat split].
  destruct (Dom.context canvas) as [ctx|]; repeat split. discriminate.
Qed.

(** X16.  On every screen reached from the first render the canvas shows
    the shapes of exactly the detections currently in the state: the
    overlay and the list of current detections never disagree.  Without a
    canvas context nothing is ever painted. *)
Theorem overlay_matches_detections (exponentNotation : Q -> string)
  (e : Env) (d : Dom.Document) (events : list Event) :
  let s := runScreen exponentNotation events
             (mountScreen exponentNotation e d) in
  page s = run events (mount e)
  /\ paintedOn (doc s)
     = match paintedOn d with
       | Some _ =>
           Some (flat_map (detectionShapes exponentNotation)
                   (detections (ui (page s))))
       | None => None
       end.
Proof.
  intros s. split; [apply page_runScreen|]. unfold s.
  induction events as [|ev events IH] using rev_ind.
  - cbn. apply paintedOn_drawDetections.
  - unfold runScreen in *. rewrite fold_left_app. cbn [fold_left].
    set (s0 := fold_left (dispatchScreen exponentNotation) events
                 (mountScreen exponentNotation e d)) in *.
    pose proof (dispatchScreen_painted exponentNotation s0 ev) as Hstep.
    cbn zeta in Hstep. rewrite IH in Hstep.
    destruct (paintedOn d); apply Hstep; reflexivity.
Qed.

(** ** Formatting *)

Lemma roundHalfUp_bounds (x : Q) (lo hi : Z) :
  (inject_Z lo <= x)%Q -> (x <= inject_Z hi)%Q ->
  lo <= roundHalfUp x <= hi.
Proof.
  intros Hlo Hhi. unfold roundHalfUp. split.
  - rewrite <- (Qfloor_Z lo). apply Qfloor_resp_le. lra.
  - pose proof (Qfloor_le (x + (1 # 2))) as Hfloor.
    assert (H : (inject_Z (Qfloor (x + (1 # 2))) <= inject_Z hi + (1 # 2))%Q)
      by lra.
    remember (Qfloor (x + (1 # 2))) as n eqn:En.
    unfold Qle in H; cbn in H. lia.
Qed.

(** The rounded value is within a half of the value, the upper end
    excluded. *)
Lemma roundHalfUp_nearest (x : Q) :
  (inject_Z (roundHalfUp x) - (1 # 2) <= x
   < inject_Z (roundHalfUp x) + (1 # 2))%Q.
Proof.
  unfold roundHalfUp.
  pose proof (Qfloor_le (x + (1 # 2))) as Hle.
  pose proof (Qlt_floor (x + (1 # 2))) as Hlt.
  rewrite inject_Z_plus in Hlt. change (inject_Z 1) with 1%Q in Hlt.
  split; lra.
Qed.

Lemma toFixed_in_range (exponentNotation : Q -> string)
  (fractionDigits : nat) (x : Q) :
  (0 <= x)%Q -> (x < inject_Z (10 ^ 21))%Q ->
  toFixed exponentNotation fractionDigits x
  = fixedDigits fractionDigits
      (roundHalfUp (x * inject_Z (10 ^ Z.of_nat fractionDigits))%Q).
Proof.
  intros H0 Hbig. unfold toFixed.
  assert (E0 : Qle_bool 0 x = true) by now apply Qle_bool_iff.
  assert (Ebig : Qle_bool (inject_Z (10 ^ 21)) x = false).
  { destruct (Qle_bool (inject_Z (10 ^ 21)) x) eqn:E; [|reflexivity].
    apply Qle_bool_iff in E. exfalso. apply (Qlt_not_le _ _ Hbig E). }
  rewrite E0. cbn [negb]. rewrite Ebig. reflexivity.
Qed.



(** The rate [m / t * 100] against a threshold, in the counters. *)
Lemma rate_threshold (k m t : Z) :
  0 < t ->
  (inject_Z k <= inject_Z m / inject_Z t * 100)%Q <-> k * t <= 100 * m.
Proof.
  intros Ht. destruct t as [|p|p]; try lia.
  remember (100 * m) as r eqn:Er.
  unfold Qle, Qdiv, Qmult, Qinv; cbn [Qnum Qden inject_Z].
  rewrite Pos.mul_1_r. lia.
Qed.



(** ** What the markup shows *)

(** X18.  On every page reached from the first render the compliance rate
    is shown green exactly when detections were counted and at least nine
    in ten of them were masked, yellow when at least seven in ten were,
    and red otherwise, in particular while nothing has been counted. *)
Theorem compliance_colour_by_counters (e : Env) (events : list Event) :
  let a := ui (run events (mount e)) in
  let t := totalDetections (stats a) in
  let m := maskedCount (stats a) in
  complianceClass a
  = if (0 <? t) && (9 * t <=? 10 * m) then "text-green-400"%string
    else if (0 <? t) && (7 * t <=? 10 * m) then "text-yellow-400"%string
    else "text-red-400"%string.
Proof.
  intros a t m.
  destruct (pageInv_run e events) as [_ [Hm Hu Hb Hr] _].
  fold a in Hm, Hu, Hb, Hr. fold t m in Hm, Hb, Hr.
  unfold complianceClass. rewrite Hr.
  assert (Hq : forall k q, Qle_bool (inject_Z k) q = true
                           <-> (inject_Z k <= q)%Q)
    by (intros; apply Qle_bool_iff).
  change 90%Q with (inject_Z 90). change 70%Q with (inject_Z 70).
  destruct (t >? 0) eqn:Ht.
  - apply Z.gtb_lt in Ht.
    assert (H0 : (0 <? t) = true) by now apply Z.ltb_lt.
    rewrite H0. cbn [andb].
    pose proof (rate_threshold 90 m t Ht) as H90.
    pose proof (rate_threshold 70 m t Ht) as H70.
    destruct (Qle_bool (inject_Z 90) _) eqn:E90.
    + apply Hq, H90 in E90.
      assert (E : (9 * t <=? 10 * m) = true) by (apply Z.leb_le; lia).
      now rewrite E.
    + assert (E : (9 * t <=? 10 * m) = false).
      { apply Z.leb_gt. destruct (Z.lt_ge_cases (10 * m) (9 * t)) as [|Hge];
          [assumption|].
        assert (Hle : 90 * t <= 100 * m) by lia.
        apply H90, Hq in Hle. congruence. }
      rewrite E.
      destruct (Qle_bool (inject_Z 70) _) eqn:E70.
      * apply Hq, H70 in E70.
        assert (E' : (7 * t <=? 10 * m) = true) by (apply Z.leb_le; lia).
        now rewrite E'.
      * assert (E' : (7 * t <=? 10 * m) = false).
        { apply Z.leb_gt.
          destruct (Z.lt_ge_cases (10 * m) (7 * t)) as [|Hge]; [assumption|].
          assert (Hle : 70 * t <= 100 * m) by lia.
          apply H70, Hq in Hle. congruence. }
        now rewrite E'.
  - rewrite Z.gtb_ltb in Ht. rewrite Ht. reflexivity.
Qed.


(** X20.  On every page reached from the first render the header reads
    "Detecting", the button offers to stop and the hint over the video is
    hidden exactly while an interval is live; otherwise the header reads
    "Stopped", the button offers to start and the hint is shown. *)
Theorem indicator_matches_timer (e : Env) (events : list Event) :
  let p := run events (mount e) in
  match activeIntervals p with
  | [] => statusText (ui p) = "Stopped"%string
          /\ toggleLabel (ui p) = "Start Detection"%string
          /\ hintShown (ui p) = true
  | _ :: _ => statusText (ui p) = "Detecting"%string
              /\ toggleLabel (ui p) = "Stop Detection"%string
              /\ hintShown (ui p) = false
  end.
Proof.
  intros p. destruct (pageInv_run e events) as [Ht _ _]. fold p in Ht.
  unfold timerInv, timerInvFor in Ht.
  unfold statusText, toggleLabel, hintShown.
  destruct (cleanup p) as [i|]; destruct Ht as [-> ->]; repeat split.
Qed.

(** X21.  For a sensitivity between 0.5 and 1 the settings panel shows a
    whole percentage between 50 and 100, the integer nearest to a hundred
    times the sensitivity. *)
Theorem sensitivity_label_range (exponentNotation : Q -> string)
  (a : AppState) :
  (0.5 <= sensitivity a <= 1)%Q ->
  exists n : Z,
    50 <= n <= 100
    /\ (inject_Z n - (1 # 2) <= sensitivity a * 100
        < inject_Z n + (1 # 2))%Q
    /\ sensitivityLabel exponentNotation a
       = ("Sensitivity: " ++ numberToString n ++ "%")%string.
Proof.
  intros Hs. set (v := sensitivity a) in *.
  exists (roundHalfUp (v * 100)).
  split; [apply roundHalfUp_bounds; unfold inject_Z; clearbody v; lra|].
  split; [apply roundHalfUp_nearest|].
  unfold sensitivityLabel. fold v. rewrite toFixed_in_range.
  - unfold fixedDigits. cbn [Nat.eqb Z.of_nat Z.pow].
    do 3 f_equal. apply Qfloor_comp. change (inject_Z (10 ^ 0)) with 1%Q.
    ring.
  - clearbody v. lra.
  - apply Qle_lt_trans with (y := 100%Q); [clearbody v; lra | reflexivity].
Qed.

Lemma sensitivity_label_range_witness :
  exists n : Z,
    50 <= n <= 100
    /\ (inject_Z n - (1 # 2) <= sensitivity initialApp * 100
        < inject_Z n + (1 # 2))%Q
    /\ sensitivityLabel sampleExponent initialApp
       = ("Sensitivity: " ++ numberToString n ++ "%")%string.
Proof.
  apply (sensitivity_label_range sampleExponent initialApp).
  cbn. split; discriminate.
Defined.
